(** * zod-openapi: the object, transform and discriminated-union parsers

    A shallow embedding of [src/create/schema/parsers/object.ts] and
    [src/create/schema/parsers/transform.ts], and of the behaviour that
    [discriminatedUnion.test.ts] and [components.test.ts] exercise.

    Zod nodes are immutable trees that carry an identity ([zid]): JavaScript's
    [===] on two nodes and the identity-keyed [Map] of the component registry
    both compare that identity, never the structure.  Emitted schema
    fragments are JSON values whose objects keep their keys in insertion
    order, so that object literals with spreads can be evaluated the way
    JavaScript evaluates them.  The converters mutate the traversal state and
    may throw; both effects are threaded explicitly through a small
    state-and-error monad. *)

From stdpp Require Import base option list strings pretty gmap.

Set Warnings "-register-all".
Open Scope string_scope.
Open Scope list_scope.

(* ------------------------------------------------------------------ *)
(** ** JSON fragments *)

Inductive JSON : Type :=
  | JStr (s : string)
  | JBool (b : bool)
  | JArr (items : list JSON)
  | JObj (fields : list (string * JSON)).

(** [oas31.SchemaObject | oas31.ReferenceObject]: always an object, given by
    its own properties in insertion order. *)
Abbreviation SchemaObject := (list (string * JSON)).

(** Plain JavaScript objects with string keys are given by their own
    enumerable properties, in the order [Object.entries] lists them.  The
    place JavaScript gives to integer-like keys (before the others, in
    ascending order) is not modelled: a list is taken to be in that order
    already, which assigning its keys one after the other preserves.

    [getProp] is the own property [key] of [obj], [None] if there is none.
    It is the whole of [obj[key]] for the objects built here, whose keys
    are never read through the prototype; the read of [baseObj[key]] in
    [createShapeDiff], which does go through [Object.prototype], is
    [getMember] below. *)
Fixpoint getProp {V : Type} (key : string) (obj : list (string * V)) : option V :=
  match obj with
  | [] => None
  | (k, v) :: rest => if String.eqb k key then Some v else getProp key rest
  end.

Definition hasProp {V : Type} (key : string) (obj : list (string * V)) : bool :=
  match getProp key obj with Some _ => true | None => false end.

(** [obj[key] = v]: an existing key keeps its position and takes the new
    value, a new key is appended. *)
Fixpoint setProp {V : Type} (key : string) (v : V) (obj : list (string * V))
  : list (string * V) :=
  match obj with
  | [] => [(key, v)]
  | (k, w) :: rest =>
      if String.eqb k key then (k, v) :: rest else (k, w) :: setProp key v rest
  end.

(** [{ ...obj, ...src }]: the properties of [src] are assigned in order. *)
Definition spread {V : Type} (src obj : list (string * V)) : list (string * V) :=
  fold_left (fun acc kv => setProp kv.1 kv.2 acc) src obj.

(** [...(cond && { ... })]: spreading [false] or [undefined] adds nothing. *)
Definition spreadIf {V : Type} (cond : bool) (src obj : list (string * V))
  : list (string * V) :=
  if cond then spread src obj else obj.

(** The names a plain object inherits from [Object.prototype]
    ([Object.getOwnPropertyNames(Object.prototype)]).  Reading any of them
    on an object that has no own property of that name gives a function,
    or, for [__proto__], the prototype itself: never [undefined]. *)
Definition Object_prototype_keys : list string :=
  ["constructor"; "__defineGetter__"; "__defineSetter__"; "hasOwnProperty";
   "__lookupGetter__"; "__lookupSetter__"; "isPrototypeOf";
   "propertyIsEnumerable"; "toString"; "valueOf"; "__proto__";
   "toLocaleString"].

(** What [obj[key]] evaluates to on a plain object: the own property, else
    the member inherited from [Object.prototype], else [undefined]. *)
Inductive Member (V : Type) : Type :=
  | Undefined
  | Own (v : V)
  | Inherited.
Arguments Undefined {V}.
Arguments Own {V} v.
Arguments Inherited {V}.

Definition getMember {V : Type} (key : string) (obj : list (string * V)) : Member V :=
  match getProp key obj with
  | Some v => Own v
  | None =>
      if bool_decide (key ∈ Object_prototype_keys) then Inherited else Undefined
  end.

(* ------------------------------------------------------------------ *)
(** ** Zod nodes *)

Inductive CreationType : Type := input | output.

Inductive UnknownKeysParam : Type := passthrough | strict | strip.

Global Instance CreationType_eq_dec : EqDecision CreationType.
Proof. solve_decision. Defined.

Global Instance UnknownKeysParam_eq_dec : EqDecision UnknownKeysParam.
Proof. solve_decision. Defined.

(** [_def.openapi]: the registration hints the parsers read. *)
Record ZodOpenApiMetadata : Type := {
  ref : option string;
  effectType : option CreationType;
}.

(** What every node has: its identity and its optional [_def.openapi].
    Two nodes are the same JavaScript object exactly when they have the
    same [zid]; structurally equal nodes built separately differ in it. *)
Record ZodNode : Type := {
  zid : positive;
  openapi : option ZodOpenApiMetadata;
}.

Inductive ZodType : Type :=
  | ZNever (n : ZodNode)
  | ZString (n : ZodNode)
  | ZLiteral (n : ZodNode) (value : string)
  | ZEnum (n : ZodNode) (values : list string)
  | ZOptional (n : ZodNode) (innerType : ZodType)
  | ZObject (o : ZodObject)
  | ZEffects (e : ZodEffects)
  | ZDiscriminatedUnion (u : ZodDiscriminatedUnion)
with ZodObject : Type :=
  | mkZodObject (n : ZodNode)
      (shape : list (string * ZodType))
      (unknownKeys : option UnknownKeysParam)
      (catchall : ZodType)
      (extends : option ZodObject)
with ZodEffects : Type :=
  | mkZodEffects (n : ZodNode) (schema : ZodType)
with ZodDiscriminatedUnion : Type :=
  | mkZodDiscriminatedUnion (n : ZodNode)
      (discriminator : string) (options : list ZodObject).

(** [ZodRawShape], as [Object.entries] enumerates it: the own properties in
    order, every key once. *)
Abbreviation ZodRawShape := (list (string * ZodType)).

Definition node (z : ZodType) : ZodNode :=
  match z with
  | ZNever n | ZString n | ZLiteral n _ | ZEnum n _ | ZOptional n _ => n
  | ZObject (mkZodObject n _ _ _ _) => n
  | ZEffects (mkZodEffects n _) => n
  | ZDiscriminatedUnion (mkZodDiscriminatedUnion n _ _) => n
  end.

(** [_def.typeName] *)
Definition typeName (z : ZodType) : string :=
  match z with
  | ZNever _ => "ZodNever"
  | ZString _ => "ZodString"
  | ZLiteral _ _ => "ZodLiteral"
  | ZEnum _ _ => "ZodEnum"
  | ZOptional _ _ => "ZodOptional"
  | ZObject _ => "ZodObject"
  | ZEffects _ => "ZodEffects"
  | ZDiscriminatedUnion _ => "ZodDiscriminatedUnion"
  end.

Definition obj_shape (o : ZodObject) : ZodRawShape :=
  let 'mkZodObject _ s _ _ _ := o in s.
Definition obj_unknownKeys (o : ZodObject) : option UnknownKeysParam :=
  let 'mkZodObject _ _ u _ _ := o in u.
Definition obj_catchall (o : ZodObject) : ZodType :=
  let 'mkZodObject _ _ _ c _ := o in c.
(** [_def.extendMetadata?.extends] *)
Definition obj_extends (o : ZodObject) : option ZodObject :=
  let 'mkZodObject _ _ _ _ e := o in e.

Definition eff_schema (e : ZodEffects) : ZodType :=
  let 'mkZodEffects _ s := e in s.

Definition du_discriminator (u : ZodDiscriminatedUnion) : string :=
  let 'mkZodDiscriminatedUnion _ d _ := u in d.
Definition du_options (u : ZodDiscriminatedUnion) : list ZodObject :=
  let 'mkZodDiscriminatedUnion _ _ os := u in os.

(** [_def.openapi?.ref] and [_def.openapi?.effectType] *)
Definition openapi_ref (z : ZodType) : option string :=
  match openapi (node z) with Some m => ref m | None => None end.
Definition openapi_effectType (z : ZodType) : option CreationType :=
  match openapi (node z) with Some m => effectType m | None => None end.

(** [a === b] on two nodes: the same object, whatever its structure. *)
Definition sameNode (a b : ZodType) : bool :=
  Pos.eqb (zid (node a)) (zid (node b)).

(** [val === baseValue] for a node [val]: [baseValue] may be a node,
    [undefined], or a member inherited from [Object.prototype], which is
    no Zod node. *)
Definition strictEq (val : ZodType) (baseValue : Member ZodType) : bool :=
  match baseValue with
  | Own b => sameNode val b
  | Undefined | Inherited => false
  end.

(** Modelled from the spec: [isZodType] of [src/zodType.ts], which is not
    among the files; the kind test on the node's tag. *)
Definition isZodType (z : ZodType) (name : string) : bool :=
  String.eqb (typeName z) name.

(* ------------------------------------------------------------------ *)
(** ** Component registry and traversal state *)

Inductive SchemaComponent : Type :=
  | ManualSchemaComponent (ref : string)
  | CompleteSchemaComponent (ref : string) (schemaObject : SchemaObject)
      (creationType : option CreationType).

Definition component_ref (c : SchemaComponent) : string :=
  match c with
  | ManualSchemaComponent r => r
  | CompleteSchemaComponent r _ _ => r
  end.

(** [state.components]: of its five identity-keyed maps the parsers read
    [schemas] only. *)
Record ComponentsObject : Type := {
  schemas : gmap positive SchemaComponent;
}.

Record SchemaState : Type := {
  components : ComponentsObject;
  type : CreationType;
  path : list string;
  state_effectType : option CreationType;
}.

(** [state.components.schemas.get(zodSchema)] *)
Definition schemas_get (z : ZodType) (state : SchemaState) : option SchemaComponent :=
  schemas (components state) !! zid (node z).

(** [state.effectType = v] *)
Definition set_effectType (v : CreationType) (state : SchemaState) : SchemaState :=
  {| components := components state;
     type := type state;
     path := path state;
     state_effectType := Some v |}.

(** Modelled from the spec: [createComponentSchemaRef] of
    [src/create/components.ts], which is not among the files; the fixed
    prefix followed by the assigned reference. *)
Definition createComponentSchemaRef (schemaRef : string) : string :=
  "#/components/schemas/" +:+ schemaRef.

(* ------------------------------------------------------------------ *)
(** ** Effects: a mutable state and exceptions *)

Inductive Result (A : Type) : Type :=
  | Ok (a : A)
  | Throw (message : string).
Arguments Ok {A} a.
Arguments Throw {A} message.

(** A computation reads and writes the traversal state and either returns
    or throws; a throw aborts the whole build, so no state is kept. *)
Definition M (A : Type) : Type := SchemaState → Result (A * SchemaState).

Definition ret {A} (a : A) : M A := fun s => Ok (a, s).

Definition bind {A B} (c : M A) (k : A → M B) : M B :=
  fun s => match c s with
           | Ok (a, s') => k a s'
           | Throw e => Throw e
           end.

Definition gets {A} (f : SchemaState → A) : M A := fun s => Ok (f s, s).

Definition throw {A} (message : string) : M A := fun _ => Throw message.

Notation "'let*' x ':=' c 'in' k" := (bind c (fun x => k))
  (at level 10, x name, c at level 100, k at level 200).
Notation "c ';;' k" := (bind c (fun _ => k))
  (at level 100, k at level 200, right associativity).

(* ------------------------------------------------------------------ *)
(** ** The parsers *)

Record AdditionalPropertyOptions : Type := {
  unknownKeys : option UnknownKeysParam;
  catchAll : ZodType;
}.

Section Parsers.

(** The collaborators the two files import.  [createSchemaObject] is the
    recursive dispatcher of [src/create/schema/index.ts]: it converts any
    node, may register components, may set [state.effectType] and may
    throw.  [createManualTypeSchema] resolves the declared output type of
    a transform, [isOptionalSchema] reads the state without changing it,
    and [JSON_stringify] is [JSON.stringify] on a node. *)
Variable createSchemaObject : ZodType → list string → M SchemaObject.
Variable createManualTypeSchema : ZodType → M SchemaObject.
Variable isOptionalSchema : ZodType → SchemaState → bool.
Variable JSON_stringify : ZodType → string.

(** *** object.ts *)

Definition is_strict (u : option UnknownKeysParam) : bool :=
  bool_decide (u = Some strict).

Definition createDiffOpts (baseOpts extendedOpts : AdditionalPropertyOptions)
  : option AdditionalPropertyOptions :=
  if is_strict (unknownKeys baseOpts) || negb (isZodType (catchAll baseOpts) "ZodNever")
  then None
  else Some {| catchAll := catchAll extendedOpts;
               unknownKeys := unknownKeys extendedOpts |}.

(** The body of the [for ... of Object.entries(extendedObj)] loop, with the
    accumulator [acc]; [None] is the early [return null].  [baseObj[key]]
    is read as JavaScript reads it, own property first and
    [Object.prototype] after.  In [acc[key] = extendedObj[key]] the
    right-hand side is [val], the value [Object.entries] paired with [key];
    the assignment is reached only for a [key] that [baseObj[key]] left
    [undefined], which [__proto__] never is. *)
Fixpoint createShapeDiff_loop (baseObj : ZodRawShape)
    (entries : list (string * ZodType)) (acc : ZodRawShape)
  : option ZodRawShape :=
  match entries with
  | [] => Some acc
  | (key, val) :: rest =>
      let baseValue := getMember key baseObj in
      if strictEq val baseValue then createShapeDiff_loop baseObj rest acc
      else match baseValue with
           | Undefined => createShapeDiff_loop baseObj rest (setProp key val acc)
           | Own _ | Inherited => None
           end
  end.

Definition createShapeDiff (baseObj extendedObj : ZodRawShape)
  : option ZodRawShape :=
  createShapeDiff_loop baseObj extendedObj [].

(** [.filter(([_key, zodSchema]) => !isOptionalSchema(zodSchema, state))
     .map(([key]) => key)] *)
Definition requiredKeys (shape : ZodRawShape) (state : SchemaState) : list string :=
  map fst (List.filter (fun kz => negb (isOptionalSchema kz.2 state)) shape).

Definition mapRequired (shape : ZodRawShape) (state : SchemaState)
  : option (list string) :=
  let required := requiredKeys shape state in
  if Nat.eqb (length required) 0 then None else Some required.

(** The [reduce] of [mapProperties], from the accumulator [acc]. *)
Fixpoint mapProperties_reduce (entries : list (string * ZodType))
    (acc : list (string * JSON)) : M (list (string * JSON)) :=
  match entries with
  | [] => ret acc
  | (key, zodSchema) :: rest =>
      let* s := createSchemaObject zodSchema ["property: " +:+ key] in
      mapProperties_reduce rest (setProp key (JObj s) acc)
  end.

(** Declared to return [SchemaObject['properties']], which admits
    [undefined]; the reduce always returns its accumulator object. *)
Definition mapProperties (shape : ZodRawShape) : M (option (list (string * JSON))) :=
  let* acc := mapProperties_reduce shape [] in
  ret (Some acc).

Definition createObjectSchemaFromShape (shape : ZodRawShape)
    (opts : AdditionalPropertyOptions) : M SchemaObject :=
  let* properties := mapProperties shape in
  let* required := gets (mapRequired shape) in
  let o := [("type", JStr "object")] in
  let o := match properties with
           | Some p => spread [("properties", JObj p)] o
           | None => o
           end in
  let o := match required with
           | Some r => spread [("required", JArr (map JStr r))] o
           | None => o
           end in
  let o := spreadIf (is_strict (unknownKeys opts))
             [("additionalProperties", JBool false)] o in
  if negb (isZodType (catchAll opts) "ZodNever") then
    let* s := createSchemaObject (catchAll opts) ["additional properties"] in
    ret (spread [("additionalProperties", JObj s)] o)
  else ret o.

(** [component ?? baseZodObject._def.openapi?.ref], as a condition: a
    component record is an object, hence truthy; a reference name is
    truthy unless it is the empty string. *)
Definition component_or_ref (component : option SchemaComponent)
    (r : option string) : bool :=
  match component with
  | Some _ => true
  | None => match r with
            | Some name => negb (String.eqb name "")
            | None => false
            end
  end.

Definition createExtendedSchema (zodObject : ZodObject)
    (baseZodObject : option ZodObject) : M (option SchemaObject) :=
  match baseZodObject with
  | None => ret None
  | Some base =>
      let* component := gets (schemas_get (ZObject base)) in
      (if component_or_ref component (openapi_ref (ZObject base))
       then let* _ := createSchemaObject (ZObject base) ["extended schema"] in
            ret tt
       else ret tt) ;;
      let* completeComponent := gets (schemas_get (ZObject base)) in
      match completeComponent with
      | None => ret None
      | Some completeComponent =>
          match createDiffOpts
                  {| unknownKeys := obj_unknownKeys base;
                     catchAll := obj_catchall base |}
                  {| unknownKeys := obj_unknownKeys zodObject;
                     catchAll := obj_catchall zodObject |} with
          | None => ret None
          | Some diffOpts =>
              match createShapeDiff (obj_shape base) (obj_shape zodObject) with
              | None => ret None
              | Some diffShape =>
                  let* s := createObjectSchemaFromShape diffShape diffOpts in
                  ret (Some (spread s
                    [("allOf",
                      JArr [JObj [("$ref",
                        JStr (createComponentSchemaRef
                                (component_ref completeComponent)))]])]))
              end
          end
      end
  end.

Definition createObjectSchema (zodObject : ZodObject) : M SchemaObject :=
  let* extendedSchema := createExtendedSchema zodObject (obj_extends zodObject) in
  match extendedSchema with
  | Some s => ret s
  | None =>
      createObjectSchemaFromShape (obj_shape zodObject)
        {| unknownKeys := obj_unknownKeys zodObject;
           catchAll := obj_catchall zodObject |}
  end.

(** *** transform.ts *)

Definition createTransformSchema (zodTransform : ZodEffects) : M SchemaObject :=
  fun state =>
    if bool_decide (openapi_effectType (ZEffects zodTransform) = Some output) then
      createManualTypeSchema (ZEffects zodTransform) state
    else if bool_decide (openapi_effectType (ZEffects zodTransform) = Some input) then
      createSchemaObject (eff_schema zodTransform) ["transform input"] state
    else if bool_decide (type state = output) then
      createManualTypeSchema (ZEffects zodTransform) state
    else
      createSchemaObject (eff_schema zodTransform) ["transform input"]
        (set_effectType input state).

Definition transformErrorText : string :=
  " contains a transformation but is used in both an input and an output. This is likely a mistake. Set an `effectType`, wrap it in a ZodPipeline or assign it a manual type to resolve".

Definition throwTransformError {A} (zodType : ZodType) : M A :=
  fun state =>
    Throw (JSON_stringify zodType +:+ " at " +:+ String.concat " > " (path state)
           +:+ transformErrorText).

(** *** discriminatedUnion.ts *)

(** Modelled from the spec: the values of a member's discriminator field,
    "a single literal contributes one mapping entry; an enum contributes
    one entry per enumerated value"; a field of another kind, which the
    spec excludes, contributes none.  [discriminatedUnion.ts] is not among
    the files, only its test is. *)
Definition discriminatorValues (member : ZodObject) (discriminator : string)
  : list string :=
  match getProp discriminator (obj_shape member) with
  | Some (ZLiteral _ value) => [value]
  | Some (ZEnum _ values) => values
  | _ => []
  end.

(** Modelled from the spec: step 1 of the discriminated-union converter,
    "recurse into each member to obtain its fragment", in declared order
    from index [index].  The spec leaves the breadcrumb unnamed; the
    member's index is used. *)
Fixpoint createOptionSchemas (options : list ZodObject) (index : nat)
  : M (list SchemaObject) :=
  match options with
  | [] => ret []
  | member :: rest =>
      let* s := createSchemaObject (ZObject member)
                  ["discriminated union option " +:+ pretty index] in
      let* ss := createOptionSchemas rest (S index) in
      ret (s :: ss)
  end.

(** Modelled from the spec: the entries one member adds to the mapping,
    each of its values to its reference path; "later members do not
    overwrite earlier ones for the same key". *)
Definition addMapping (componentSchemaRef : string) (values : list string)
    (mapping : list (string * JSON)) : list (string * JSON) :=
  fold_left
    (fun acc value =>
       if hasProp value acc then acc
       else setProp value (JStr componentSchemaRef) acc)
    values mapping.

(** Modelled from the spec: steps 3 and 4, the mapping is built "only if
    every member is a registered component (has an assigned reference)";
    [None] as soon as one member has no record. *)
Fixpoint mapDiscriminator_loop (options : list ZodObject)
    (discriminator : string) (state : SchemaState)
    (mapping : list (string * JSON)) : option (list (string * JSON)) :=
  match options with
  | [] => Some mapping
  | member :: rest =>
      match schemas_get (ZObject member) state with
      | None => None
      | Some component =>
          mapDiscriminator_loop rest discriminator state
            (addMapping (createComponentSchemaRef (component_ref component))
               (discriminatorValues member discriminator) mapping)
      end
  end.

Definition mapDiscriminator (options : list ZodObject) (discriminator : string)
    (state : SchemaState) : option SchemaObject :=
  match mapDiscriminator_loop options discriminator state [] with
  | None => None
  | Some mapping =>
      Some [("propertyName", JStr discriminator); ("mapping", JObj mapping)]
  end.

(** Modelled from the spec: [createDiscriminatedUnionSchema], steps 1 to 4
    of the discriminated-union converter: the [oneOf] list of the member
    fragments, and the [discriminator] block when the mapping could be
    built. *)
Definition createDiscriminatedUnionSchema (zodDiscriminatedUnion : ZodDiscriminatedUnion)
  : M SchemaObject :=
  let* schemas := createOptionSchemas (du_options zodDiscriminatedUnion) 0 in
  let* discriminator :=
    gets (mapDiscriminator (du_options zodDiscriminatedUnion)
            (du_discriminator zodDiscriminatedUnion)) in
  let o := [("oneOf", JArr (map JObj schemas))] in
  ret (match discriminator with
       | Some d => spread [("discriminator", JObj d)] o
       | None => o
       end).

End Parsers.

(* ------------------------------------------------------------------ *)
(** ** A dispatcher to run the parsers with *)

(** The dispatcher itself is not part of these files.  To evaluate the
    parsers on concrete schemas, this one converts the node kinds the
    repository's tests use, the way those tests show: strings, literals and
    enums inline, objects through [createObjectSchema], and any node with a
    registered component or a [ref] hint as a [$ref] to its component, which
    is completed on first use.  Nesting is bounded by [fuel]. *)

Definition with_path (p : list string) (state : SchemaState) : SchemaState :=
  {| components := components state;
     type := type state;
     path := p;
     state_effectType := state_effectType state |}.

Definition register (z : ZodType) (c : SchemaComponent) (state : SchemaState)
  : SchemaState :=
  {| components := {| schemas := <[zid (node z) := c]> (schemas (components state)) |};
     type := type state;
     path := path state;
     state_effectType := state_effectType state |}.

(** [ZodOptional] is optional; nothing else the tests use is. *)
Definition plainIsOptionalSchema (z : ZodType) (_ : SchemaState) : bool :=
  match z with
  | ZOptional _ _ => true
  | _ => false
  end.

Definition plainManualTypeSchema (z : ZodType) : M SchemaObject :=
  throw "Unknown schema".

Definition refObject (r : string) : SchemaObject :=
  [("$ref", JStr (createComponentSchemaRef r))].

Fixpoint plainSchemaObject (fuel : nat) (z : ZodType) (subpath : list string)
  : M SchemaObject :=
  match fuel with
  | O => throw "Schema does not exist"
  | S fuel' =>
      let inline : M SchemaObject :=
        match z with
        | ZString _ => ret [("type", JStr "string")]
        | ZLiteral _ value =>
            ret [("type", JStr "string"); ("enum", JArr [JStr value])]
        | ZEnum _ values =>
            ret [("type", JStr "string"); ("enum", JArr (map JStr values))]
        | ZNever _ => ret [("not", JObj [])]
        | ZOptional _ innerType =>
            plainSchemaObject fuel' innerType ["optional"]
        | ZObject o =>
            createObjectSchema (plainSchemaObject fuel') plainIsOptionalSchema o
        | ZEffects e =>
            createTransformSchema (plainSchemaObject fuel') plainManualTypeSchema e
        | ZDiscriminatedUnion u =>
            createDiscriminatedUnionSchema (plainSchemaObject fuel') u
        end in
      fun state =>
        let inner := with_path (path state ++ subpath) state in
        let complete (r : string) :=
          match inline inner with
          | Throw e => Throw e
          | Ok (s, state') =>
              Ok (refObject r,
                  with_path (path state)
                    (register z (CompleteSchemaComponent r s (Some (type state')))
                       state'))
          end in
        match schemas_get z state with
        | Some (CompleteSchemaComponent r _ _) => Ok (refObject r, state)
        | Some (ManualSchemaComponent r) => complete r
        | None =>
            match openapi_ref z with
            | Some r => complete r
            | None =>
                match inline inner with
                | Throw e => Throw e
                | Ok (s, state') => Ok (s, with_path (path state) state')
                end
            end
        end
  end.

(** [createOutputState()] and [createInputState()] of the tests: an empty
    registry and an empty path. *)
Definition createOutputState : SchemaState :=
  {| components := {| schemas := ∅ |};
     type := output; path := []; state_effectType := None |}.

Definition createInputState : SchemaState :=
  {| components := {| schemas := ∅ |};
     type := input; path := []; state_effectType := None |}.

(** The fragment a computation returns, for comparing with an expected one. *)
Definition fragment {A} (r : Result (A * SchemaState)) : Result A :=
  match r with
  | Ok (a, _) => Ok a
  | Throw e => Throw e
  end.

(* ------------------------------------------------------------------ *)
(** ** Vocabulary of the statements *)

(** The [required] and [additionalProperties] entries of the literal, after
    [type] and [properties]. *)
Definition requiredPart (required : option (list string)) : SchemaObject :=
  match required with
  | Some r => [("required", JArr (map JStr r))]
  | None => []
  end.

Definition objectLiteral (p : list (string * JSON)) (required : option (list string))
    (additional : SchemaObject) : SchemaObject :=
  ("type", JStr "object") :: ("properties", JObj p) :: requiredPart required ++ additional.

(** A recorded [effectType] is the direction of the traversal it was
    recorded on.  The states a traversal starts from record nothing and
    have it; [createTransformSchema] keeps it. *)
Definition effectTypeOfTraversal (state : SchemaState) : Prop :=
  ∀ d, state_effectType state = Some d → d = type state.

(** The fields of [extendedObj] whose key [baseObj] does not have. *)
Definition absentFrom (baseObj extendedObj : ZodRawShape) : ZodRawShape :=
  List.filter (λ kv, negb (hasProp kv.1 baseObj)) extendedObj.

(** [{ unknownKeys: o._def.unknownKeys, catchAll: o._def.catchall }] *)
Definition optionsOf (o : ZodObject) : AdditionalPropertyOptions :=
  {| unknownKeys := obj_unknownKeys o; catchAll := obj_catchall o |}.

(** The dispatcher run on the fields one after the other, each under its
    breadcrumb [property: key]: the fragments, in the order of the fields. *)
Fixpoint convertEach (createSchemaObject : ZodType → list string → M SchemaObject)
    (entries : list (string * ZodType)) : M (list SchemaObject) :=
  match entries with
  | [] => ret []
  | (key, zodSchema) :: rest =>
      let* s := createSchemaObject zodSchema ["property: " +:+ key] in
      let* ss := convertEach createSchemaObject rest in
      ret (s :: ss)
  end.

(** [{ allOf: [{ $ref }] }] for the component named [r]. *)
Definition allOfRef (r : string) : string * JSON :=
  ("allOf", JArr [JObj [("$ref", JStr (createComponentSchemaRef r))]]).

(* ------------------------------------------------------------------ *)
(** ** Sample schemas *)

Module Tests.

Definition plain (i : positive) : ZodNode := {| zid := i; openapi := None |}.
Definition withRef (i : positive) (r : string) : ZodNode :=
  {| zid := i; openapi := Some {| ref := Some r; effectType := None |} |}.

(** [z.object(shape)]: strip unknown keys, no catch-all, extends nothing. *)
Definition object (n : ZodNode) (shape : ZodRawShape) : ZodObject :=
  mkZodObject n shape (Some strip) (ZNever (plain 1)) None.

Definition run (z : ZodType) (state : SchemaState) : Result SchemaObject :=
  fragment (plainSchemaObject 5 z [] state).

(** 'creates a oneOf schema' *)
Definition unionAB : ZodDiscriminatedUnion :=
  mkZodDiscriminatedUnion (plain 10) "type"
    [ object (plain 11) [("type", ZLiteral (plain 12) "a")];
      object (plain 13) [("type", ZLiteral (plain 14) "b")] ].

Definition literalObject (v : string) : JSON :=
  JObj [("type", JStr "object");
        ("properties",
          JObj [("type", JObj [("type", JStr "string"); ("enum", JArr [JStr v])])]);
        ("required", JArr [JStr "type"])].

(** 'creates a oneOf schema with discriminator mapping when schemas are
    registered' *)
Definition unionABregistered : ZodDiscriminatedUnion :=
  mkZodDiscriminatedUnion (plain 10) "type"
    [ object (withRef 11 "a") [("type", ZLiteral (plain 12) "a")];
      object (withRef 13 "b") [("type", ZLiteral (plain 14) "b")] ].

(** '... when schemas with enums are registered' *)
Definition unionCD : ZodDiscriminatedUnion :=
  mkZodDiscriminatedUnion (plain 10) "type"
    [ object (withRef 11 "c") [("type", ZLiteral (plain 12) "c")];
      object (withRef 13 "d") [("type", ZEnum (plain 14) ["d"; "e"])] ].

(** '... when schemas with enums are registered manually' *)
Definition unionCDmanual : ZodDiscriminatedUnion :=
  mkZodDiscriminatedUnion (plain 10) "type"
    [ object (plain 11) [("type", ZLiteral (plain 12) "c")];
      object (plain 13) [("type", ZEnum (plain 14) ["d"; "e"])] ].

Definition manualState : SchemaState :=
  {| components :=
       {| schemas := <[11%positive := ManualSchemaComponent "c"]>
                       (<[13%positive := ManualSchemaComponent "d"]> ∅) |};
     type := output; path := []; state_effectType := None |}.

(** Inputs the statements below are run on. *)

Definition neverCatchall : ZodType := ZNever (plain 1).

Definition stripOpts : AdditionalPropertyOptions :=
  {| unknownKeys := Some strip; catchAll := neverCatchall |}.

(** [z.object({}).strict().catchall(z.string())] keeps both settings. *)
Definition strictCatchallOpts : AdditionalPropertyOptions :=
  {| unknownKeys := Some strict; catchAll := ZString (plain 2) |}.

Definition convert (shape : ZodRawShape) (opts : AdditionalPropertyOptions)
    (state : SchemaState) : Result (SchemaObject * SchemaState) :=
  createObjectSchemaFromShape (plainSchemaObject 5) plainIsOptionalSchema
    shape opts state.

Definition shapeA : ZodRawShape := [("a", ZString (plain 41))].

(** [{ a: z.string(), b: z.string().optional(), c: z.string() }] *)
Definition shapeABC : ZodRawShape :=
  [("a", ZString (plain 41));
   ("b", ZOptional (plain 42) (ZString (plain 43)));
   ("c", ZString (plain 44))].

(** Transforms over a string: with a declared direction and without. *)
Definition declared (i : positive) (d : CreationType) : ZodNode :=
  {| zid := i; openapi := Some {| ref := None; effectType := Some d |} |}.

Definition transformOut : ZodEffects := mkZodEffects (declared 20 output) (ZString (plain 21)).
Definition transformIn : ZodEffects := mkZodEffects (declared 22 input) (ZString (plain 23)).
Definition transformPlain : ZodEffects := mkZodEffects (plain 24) (ZString (plain 25)).

(** An output traversal on which ['output'] has been recorded. *)
Definition outputRecordedState : SchemaState :=
  {| components := {| schemas := ∅ |};
     type := output; path := ["a"; "b"]; state_effectType := Some output |}.

Definition transform (zodTransform : ZodEffects) (state : SchemaState)
  : Result (SchemaObject * SchemaState) :=
  createTransformSchema (plainSchemaObject 5) plainManualTypeSchema zodTransform state.

(** The extension example: base [{ a }] registered as [X], extended by
    [{ a, b }] with the very same node for [a]. *)
Definition nodeA : ZodType := ZString (plain 31).
Definition baseX : ZodObject := object (plain 30) [("a", nodeA)].
Definition extendedAB : ZodObject :=
  mkZodObject (plain 32) [("a", nodeA); ("b", ZString (plain 33))]
    (Some strip) neverCatchall (Some baseX).

(** The same, but [a] is redefined by a structurally identical new node. *)
Definition extendedRedefined : ZodObject :=
  mkZodObject (plain 32) [("a", ZString (plain 34)); ("b", ZString (plain 33))]
    (Some strip) neverCatchall (Some baseX).

(** A strict base and its extension. *)
Definition baseStrict : ZodObject :=
  mkZodObject (plain 30) [("a", nodeA)] (Some strict) neverCatchall None.
Definition extendedOfStrict : ZodObject :=
  mkZodObject (plain 32) [("a", nodeA); ("b", ZString (plain 33))]
    (Some strip) neverCatchall (Some baseStrict).

Definition schemaOfA : SchemaObject :=
  [("type", JStr "object");
   ("properties", JObj [("a", JObj [("type", JStr "string")])]);
   ("required", JArr [JStr "a"])].

(** An output traversal in which node 30 is the complete component [X]. *)
Definition registeredState : SchemaState :=
  {| components :=
       {| schemas := {[ 30%positive :=
                        CompleteSchemaComponent "X" schemaOfA (Some output) ]} |};
     type := output; path := []; state_effectType := None |}.

Definition extend (zodObject : ZodObject) (state : SchemaState)
  : Result (option SchemaObject * SchemaState) :=
  createExtendedSchema (plainSchemaObject 5) plainIsOptionalSchema
    zodObject (obj_extends zodObject) state.

Definition objectSchema (zodObject : ZodObject) (state : SchemaState)
  : Result (SchemaObject * SchemaState) :=
  createObjectSchema (plainSchemaObject 5) plainIsOptionalSchema zodObject state.

Definition optionSchemas (u : ZodDiscriminatedUnion) (state : SchemaState)
  : Result (list SchemaObject * SchemaState) :=
  createOptionSchemas (plainSchemaObject 5) (du_options u) 0 state.

Definition discriminatedUnion (u : ZodDiscriminatedUnion) (state : SchemaState)
  : Result (SchemaObject * SchemaState) :=
  createDiscriminatedUnionSchema (plainSchemaObject 5) u state.

(** [unionCD] with only its second member registered. *)
Definition unionCDhalf : ZodDiscriminatedUnion :=
  mkZodDiscriminatedUnion (plain 10) "type"
    [ object (plain 11) [("type", ZLiteral (plain 12) "c")];
      object (withRef 13 "d") [("type", ZEnum (plain 14) ["d"; "e"])] ].

(** Further inputs: a base that carries a [ref] hint but is not registered
    yet, and its extension. *)
Definition baseHinted : ZodObject := object (withRef 30 "X") [("a", nodeA)].
Definition extendedOfHinted : ZodObject :=
  mkZodObject (plain 32) [("a", nodeA); ("b", ZString (plain 33))]
    (Some strip) neverCatchall (Some baseHinted).

(** A base whose [ref] hint is the empty string. *)
Definition baseEmptyRef : ZodObject := object (withRef 30 "") [("a", nodeA)].

(** A shape whose second field cannot be converted in an output traversal:
    a transform without manual type. *)
Definition shapeWithTransform : ZodRawShape :=
  [("a", ZString (plain 41)); ("t", ZEffects transformPlain); ("c", ZString (plain 44))].

(** A dispatcher that never throws: every node becomes the component [n],
    registered on the way; only the registry changes. *)
Definition registeringDispatcher (z : ZodType) (_ : list string) : M SchemaObject :=
  fun state => Ok (refObject "n", register z (ManualSchemaComponent "n") state).

(** States that differ in the registry at most. *)
Definition sameTraversal (s s' : SchemaState) : Prop :=
  type s = type s' ∧ path s = path s' ∧ state_effectType s = state_effectType s'.

(** A field with a default: optional on input, required on output. *)
Definition defaultedIsOptionalSchema (z : ZodType) (state : SchemaState) : bool :=
  match z with
  | ZOptional _ _ => true
  | ZLiteral _ _ => bool_decide (type state = input)
  | _ => false
  end.

Definition shapeWithDefault : ZodRawShape :=
  [("a", ZString (plain 41)); ("d", ZLiteral (plain 45) "x")].

Definition extendedOfEmptyRef : ZodObject :=
  mkZodObject (plain 32) [("a", nodeA); ("b", ZString (plain 33))]
    (Some strip) neverCatchall (Some baseEmptyRef).

(** The state in which [baseHinted] has been completed as [X]. *)
Definition hintedState : SchemaState :=
  register (ZObject baseHinted)
    (CompleteSchemaComponent "X" schemaOfA (Some output)) createOutputState.

(** [baseX] extended by a field named like a member every object inherits
    from [Object.prototype]. *)
Definition extendedToString : ZodObject :=
  mkZodObject (plain 32) [("a", nodeA); ("toString", ZString (plain 33))]
    (Some strip) neverCatchall (Some baseX).

End Tests.

(* ------------------------------------------------------------------ *)
(** ** The repository's tests, evaluated *)

Example test_creates_a_oneOf_schema :
  Tests.run (ZDiscriminatedUnion Tests.unionAB) createOutputState
  = Ok [("oneOf", JArr [Tests.literalObject "a"; Tests.literalObject "b"])].
Proof. vm_compute. reflexivity. Qed.

Example test_discriminator_mapping_registered :
  Tests.run (ZDiscriminatedUnion Tests.unionABregistered) createOutputState
  = Ok [("oneOf", JArr [JObj [("$ref", JStr "#/components/schemas/a")];
                        JObj [("$ref", JStr "#/components/schemas/b")]]);
        ("discriminator",
          JObj [("propertyName", JStr "type");
                ("mapping", JObj [("a", JStr "#/components/schemas/a");
                                  ("b", JStr "#/components/schemas/b")])])].
Proof. vm_compute. reflexivity. Qed.

Example test_discriminator_mapping_enums :
  Tests.run (ZDiscriminatedUnion Tests.unionCD) createOutputState
  = Ok [("oneOf", JArr [JObj [("$ref", JStr "#/components/schemas/c")];
                        JObj [("$ref", JStr "#/components/schemas/d")]]);
        ("discriminator",
          JObj [("propertyName", JStr "type");
                ("mapping", JObj [("c", JStr "#/components/schemas/c");
                                  ("d", JStr "#/components/schemas/d");
                                  ("e", JStr "#/components/schemas/d")])])].
Proof. vm_compute. reflexivity. Qed.

Example test_discriminator_mapping_enums_manual :
  Tests.run (ZDiscriminatedUnion Tests.unionCDmanual) Tests.manualState
  = Ok [("oneOf", JArr [JObj [("$ref", JStr "#/components/schemas/c")];
                        JObj [("$ref", JStr "#/components/schemas/d")]]);
        ("discriminator",
          JObj [("propertyName", JStr "type");
                ("mapping", JObj [("c", JStr "#/components/schemas/c");
                                  ("d", JStr "#/components/schemas/d");
                                  ("e", JStr "#/components/schemas/d")])])].
Proof. vm_compute. reflexivity. Qed.

(* ------------------------------------------------------------------ *)
(** ** Objects as ordered property lists *)

Section Props.
Context {V : Type}.
Implicit Types (obj : list (string * V)) (key : string) (v : V).

Lemma getProp_setProp_eq key v obj : getProp key (setProp key v obj) = Some v.
Proof.
  induction obj as [|[k w] rest IH]; simpl.
  - by rewrite String.eqb_refl.
  - destruct (String.eqb k key) eqn:E; simpl; by rewrite E.
Qed.

Lemma getProp_setProp_ne key key' v obj :
  key ≠ key' → getProp key' (setProp key v obj) = getProp key' obj.
Proof.
  intros Hne. induction obj as [|[k w] rest IH]; simpl.
  - destruct (String.eqb key key') eqn:E; [|done].
    by apply String.eqb_eq in E.
  - destruct (String.eqb k key) eqn:E; simpl; [|by rewrite IH].
    apply String.eqb_eq in E. subst k.
    destruct (String.eqb key key') eqn:E'; [|done].
    by apply String.eqb_eq in E'.
Qed.

(** Assigning a key the object does not have appends it. *)
Lemma setProp_fresh key v obj :
  getProp key obj = None → setProp key v obj = obj ++ [(key, v)].
Proof.
  induction obj as [|[k w] rest IH]; simpl; [done|].
  destruct (String.eqb k key); [done|]. intros H. by rewrite IH.
Qed.

Lemma getProp_app key obj obj' :
  getProp key (obj ++ obj') =
    match getProp key obj with Some v => Some v | None => getProp key obj' end.
Proof.
  induction obj as [|[k w] rest IH]; simpl; [done|].
  by destruct (String.eqb k key).
Qed.

Lemma getProp_None_not_in key obj :
  getProp key obj = None ↔ key ∉ (map fst obj).
Proof.
  induction obj as [|[k w] rest IH]; simpl.
  - split; [intros _; apply not_elem_of_nil | done].
  - rewrite not_elem_of_cons. destruct (String.eqb k key) eqn:E.
    + apply String.eqb_eq in E. subst. split; [done | intros [? _]; done].
    + apply String.eqb_neq in E. rewrite IH. split; [intros ?; split; congruence | tauto].
Qed.

End Props.

(* ------------------------------------------------------------------ *)
(** ** The shape/property mapper *)

Section ShapeMapper.
Variable createSchemaObject : ZodType → list string → M SchemaObject.
Variable isOptionalSchema : ZodType → SchemaState → bool.

Local Abbreviation mapProperties := (mapProperties createSchemaObject).
Local Abbreviation mapProperties_reduce := (mapProperties_reduce createSchemaObject).
Local Abbreviation mapRequired := (mapRequired isOptionalSchema).
Local Abbreviation requiredKeys := (requiredKeys isOptionalSchema).
Local Abbreviation createObjectSchemaFromShape :=
  (createObjectSchemaFromShape createSchemaObject isOptionalSchema).

(** The object literal of [createObjectSchemaFromShape], evaluated: the
    properties are converted first, [required] is computed in the state
    they leave, and the catch-all is converted last. *)
Lemma createObjectSchemaFromShape_unfold shape opts state :
  createObjectSchemaFromShape shape opts state =
    match mapProperties_reduce shape [] state with
    | Throw e => Throw e
    | Ok (p, state1) =>
        let required := mapRequired shape state1 in
        if isZodType (catchAll opts) "ZodNever" then
          Ok (objectLiteral p required
                (if is_strict (unknownKeys opts)
                 then [("additionalProperties", JBool false)] else []),
              state1)
        else
          match createSchemaObject (catchAll opts) ["additional properties"] state1 with
          | Throw e => Throw e
          | Ok (s, state2) =>
              Ok (objectLiteral p required [("additionalProperties", JObj s)], state2)
          end
    end.
Proof.
  unfold createObjectSchemaFromShape, mapProperties, bind, ret, gets.
  destruct (mapProperties_reduce shape [] state) as [[p state1]|e]; [|done].
  destruct (isZodType (catchAll opts) "ZodNever"); simpl.
  - by destruct (mapRequired shape state1), (is_strict (unknownKeys opts)).
  - destruct (createSchemaObject _ _ state1) as [[s state2]|e]; [|done].
    by destruct (mapRequired shape state1), (is_strict (unknownKeys opts)).
Qed.

Lemma requiredKeys_elem (shape : ZodRawShape) state key :
  key ∈ requiredKeys shape state ↔
  ∃ zodSchema, (key, zodSchema) ∈ shape ∧ isOptionalSchema zodSchema state = false.
Proof.
  unfold requiredKeys.
  rewrite list_elem_of_In, in_map_iff. split.
  - intros ([k z] & <- & Hin). apply filter_In in Hin as [Hin Hopt].
    exists z. split; [by apply list_elem_of_In|]. by apply negb_true_iff in Hopt.
  - intros (z & Hin & Hopt). exists (key, z). split; [done|].
    apply filter_In. split; [by apply list_elem_of_In|]. simpl. by rewrite Hopt.
Qed.

Lemma requiredKeys_sublist (shape : ZodRawShape) state :
  sublist (requiredKeys shape state) (map fst shape).
Proof.
  unfold requiredKeys.
  induction shape as [|[k z] rest IH]; simpl; [constructor|].
  destruct (negb (isOptionalSchema z state)); simpl; by constructor.
Qed.

(** C1, at its failing input: for the empty shape the code emits
    [properties: {}] next to [type: 'object'].  [mapRequired] returns
    [undefined] there and [required] is left out, but [mapProperties]
    returns its empty accumulator, which the guard [properties && ...]
    lets through. *)
Theorem createObjectSchemaFromShape_empty_shape (state : SchemaState) :
  createObjectSchemaFromShape [] Tests.stripOpts state
  = Ok ([("type", JStr "object"); ("properties", JObj [])], state)
  ∧ mapProperties [] state = Ok (Some [], state)
  ∧ mapRequired [] state = None.
Proof. done. Qed.

(** C8: the [required] list holds exactly the names of the fields whose
    schema is not optional in the current state, in the order of the shape,
    and [mapRequired] returns [undefined] exactly when no field qualifies. *)
Theorem mapRequired_spec (shape : ZodRawShape) (state : SchemaState) :
  (∀ key, key ∈ requiredKeys shape state ↔
     ∃ zodSchema, (key, zodSchema) ∈ shape ∧ isOptionalSchema zodSchema state = false)
  ∧ requiredKeys shape state
    = map fst (List.filter (λ kz, negb (isOptionalSchema kz.2 state)) shape)
  ∧ sublist (requiredKeys shape state) (map fst shape)
  ∧ (mapRequired shape state = None ↔
       ∀ key zodSchema, (key, zodSchema) ∈ shape → isOptionalSchema zodSchema state = true)
  ∧ (mapRequired shape state ≠ None →
       mapRequired shape state = Some (requiredKeys shape state)).
Proof.
  split; [apply requiredKeys_elem|].
  split; [done|].
  split; [apply requiredKeys_sublist|].
  assert (Hnil : requiredKeys shape state = [] ↔
    ∀ key zodSchema, (key, zodSchema) ∈ shape → isOptionalSchema zodSchema state = true).
  { split.
    - intros Hempty key z Hin.
      destruct (isOptionalSchema z state) eqn:E; [done|].
      assert (key ∈ requiredKeys shape state) as Hk
        by (apply requiredKeys_elem; eauto).
      rewrite Hempty in Hk. by apply elem_of_nil in Hk.
    - intros Hall. destruct (requiredKeys shape state) as [|k ks] eqn:E; [done|].
      assert (k ∈ requiredKeys shape state) as Hk by (rewrite E; left).
      apply requiredKeys_elem in Hk as (z & Hin & Hopt).
      rewrite (Hall _ _ Hin) in Hopt. done. }
  unfold mapRequired.
  fold (requiredKeys shape state).
  destruct (requiredKeys shape state) as [|k ks]; simpl.
  - split; [|done]. split; [intros _; by apply Hnil | done].
  - split; [|done]. split; [done|]. intros Hall. by apply Hnil in Hall.
Qed.

(** C10, as the code has it: the fragment always carries [type: 'object'];
    [additionalProperties] is the converted catch-all exactly when the
    catch-all is not [ZodNever], it is [false] exactly when [unknownKeys] is
    ['strict'] and the catch-all is [ZodNever], and it is absent exactly
    when neither holds. *)
Theorem createObjectSchemaFromShape_additionalProperties
    (shape : ZodRawShape) (opts : AdditionalPropertyOptions)
    (state state' : SchemaState) (o : SchemaObject) :
  createObjectSchemaFromShape shape opts state = Ok (o, state') →
  getProp "type" o = Some (JStr "object")
  ∧ ((∃ s state1,
        createSchemaObject (catchAll opts) ["additional properties"] state1
          = Ok (s, state')
        ∧ getProp "additionalProperties" o = Some (JObj s))
     ↔ isZodType (catchAll opts) "ZodNever" = false)
  ∧ (getProp "additionalProperties" o = Some (JBool false)
     ↔ unknownKeys opts = Some strict ∧ isZodType (catchAll opts) "ZodNever" = true)
  ∧ (getProp "additionalProperties" o = None
     ↔ unknownKeys opts ≠ Some strict ∧ isZodType (catchAll opts) "ZodNever" = true).
Proof.
  rewrite createObjectSchemaFromShape_unfold.
  destruct (mapProperties_reduce shape [] state) as [[p state1]|e]; [|done].
  simpl. unfold is_strict.
  destruct (isZodType (catchAll opts) "ZodNever") eqn:Hnever.
  - intros [= <- <-]. unfold objectLiteral.
    destruct (mapRequired shape state1) as [r|]; simpl;
      case_bool_decide as Hs; simpl;
      (split; [done|]);
      (split; [split; [intros (? & ? & _ & [=]) | done]|]);
      (split; split; try done; try tauto; intros []; done).
  - destruct (createSchemaObject _ _ state1) as [[s state2]|e] eqn:Hc; [|done].
    intros [= <- <-]. unfold objectLiteral.
    destruct (mapRequired shape state1) as [r|]; simpl;
      (split; [done|]);
      (split; [split; [done | intros _; by exists s, state1]|]);
      (split; split; try done; intros []; done).
Qed.

End ShapeMapper.

(** C10, as stated, fails when an object is both strict and has a
    catch-all: the later spread replaces [false] by the catch-all's
    fragment, whatever the dispatcher returns for it. *)
Lemma strict_with_catchall_not_false :
  unknownKeys Tests.strictCatchallOpts = Some strict
  ∧ (∀ createSchemaObject isOptionalSchema state,
       createObjectSchemaFromShape createSchemaObject isOptionalSchema
         [] Tests.strictCatchallOpts state
       = match createSchemaObject (ZString (Tests.plain 2))
                 ["additional properties"] state with
         | Ok (s, state') =>
             Ok ([("type", JStr "object"); ("properties", JObj []);
                  ("additionalProperties", JObj s)], state')
         | Throw e => Throw e
         end)
  ∧ Tests.convert Tests.shapeA Tests.strictCatchallOpts createOutputState
    = Ok ([("type", JStr "object");
           ("properties", JObj [("a", JObj [("type", JStr "string")])]);
           ("required", JArr [JStr "a"]);
           ("additionalProperties", JObj [("type", JStr "string")])],
          createOutputState)
  ∧ ¬ (∀ o state',
         Tests.convert Tests.shapeA Tests.strictCatchallOpts createOutputState
           = Ok (o, state') →
         (getProp "additionalProperties" o = Some (JBool false)
          ↔ unknownKeys Tests.strictCatchallOpts = Some strict)).
Proof.
  split; [done|]. split.
  { intros cso opt state. rewrite createObjectSchemaFromShape_unfold. simpl.
    by destruct (cso _ _ state) as [[s state']|e]. }
  split; [by vm_compute|].
  intros H. specialize (H _ _ eq_refl). destruct H as [_ H].
  specialize (H eq_refl). vm_compute in H. discriminate H.
Qed.

Lemma createObjectSchemaFromShape_additionalProperties_witness :
  getProp "additionalProperties"
    [("type", JStr "object");
     ("properties", JObj [("a", JObj [("type", JStr "string")])]);
     ("required", JArr [JStr "a"]);
     ("additionalProperties", JObj [("type", JStr "string")])]
  = Some (JBool false)
  ↔ unknownKeys Tests.strictCatchallOpts = Some strict
    ∧ isZodType (catchAll Tests.strictCatchallOpts) "ZodNever" = true.
Proof.
  refine (proj1 (proj2 (proj2
    (createObjectSchemaFromShape_additionalProperties
       (plainSchemaObject 5) plainIsOptionalSchema
       Tests.shapeA Tests.strictCatchallOpts createOutputState createOutputState
       _ _)))).
  vm_compute. reflexivity.
Defined.

(* ------------------------------------------------------------------ *)
(** ** The transform resolver *)

Section Transform.
Variable createSchemaObject : ZodType → list string → M SchemaObject.
Variable createManualTypeSchema : ZodType → M SchemaObject.
Variable JSON_stringify : ZodType → string.

Local Abbreviation createTransformSchema :=
  (createTransformSchema createSchemaObject createManualTypeSchema).

(** C3: the four cases of [createTransformSchema], first match first: a
    declared ['output'] and, failing any declaration, an output traversal
    go to the manual type; a declared ['input'] recurses into the wrapped
    schema in the state as it is; what remains records ['input'] on the
    state and recurses into the wrapped schema. *)
Theorem createTransformSchema_resolution
    (zodTransform : ZodEffects) (state : SchemaState) :
  (openapi_effectType (ZEffects zodTransform) = Some output →
     createTransformSchema zodTransform state
     = createManualTypeSchema (ZEffects zodTransform) state)
  ∧ (openapi_effectType (ZEffects zodTransform) = Some input →
     createTransformSchema zodTransform state
     = createSchemaObject (eff_schema zodTransform) ["transform input"] state)
  ∧ (openapi_effectType (ZEffects zodTransform) = None → type state = output →
     createTransformSchema zodTransform state
     = createManualTypeSchema (ZEffects zodTransform) state)
  ∧ (openapi_effectType (ZEffects zodTransform) = None → type state = input →
     createTransformSchema zodTransform state
     = createSchemaObject (eff_schema zodTransform) ["transform input"]
         (set_effectType input state)
     ∧ state_effectType (set_effectType input state) = Some input).
Proof.
  unfold createTransformSchema.
  split; [|split; [|split]].
  - intros ->. repeat case_bool_decide; congruence.
  - intros ->. repeat case_bool_decide; congruence.
  - intros -> ->. repeat case_bool_decide; congruence.
  - intros -> ->. split; [|done]. repeat case_bool_decide; congruence.
Qed.


End Transform.

Lemma createTransformSchema_resolution_witness :
  Tests.transform Tests.transformOut createInputState = Throw "Unknown schema"
  ∧ Tests.transform Tests.transformIn createOutputState
    = Ok ([("type", JStr "string")], createOutputState)
  ∧ Tests.transform Tests.transformPlain createOutputState = Throw "Unknown schema"
  ∧ Tests.transform Tests.transformPlain createInputState
    = Ok ([("type", JStr "string")], set_effectType input createInputState).
Proof.
  pose proof (createTransformSchema_resolution (plainSchemaObject 5)
                plainManualTypeSchema) as H.
  split; [|split; [|split]]; unfold Tests.transform.
  - rewrite (proj1 (H Tests.transformOut createInputState)); reflexivity.
  - rewrite (proj1 (proj2 (H Tests.transformIn createOutputState))); reflexivity.
  - rewrite (proj1 (proj2 (proj2 (H Tests.transformPlain createOutputState))));
      reflexivity.
  - rewrite (proj1 (proj2 (proj2 (proj2 (H Tests.transformPlain createInputState)))
                      eq_refl eq_refl));
      reflexivity.
Defined.


(* ------------------------------------------------------------------ *)
(** ** The extension/diff engine *)

Lemma getMember_own {V : Type} (key : string) (v : V) (obj : list (string * V)) :
  getProp key obj = Some v → getMember key obj = Own v.
Proof. unfold getMember. by intros ->. Qed.

Lemma getMember_inherited {V : Type} (key : string) (obj : list (string * V)) :
  getProp key obj = None → key ∈ Object_prototype_keys →
  getMember key obj = Inherited.
Proof. unfold getMember. intros -> Hin. by rewrite bool_decide_eq_true_2. Qed.

Lemma getMember_undefined {V : Type} (key : string) (obj : list (string * V)) :
  getProp key obj = None → key ∉ Object_prototype_keys →
  getMember key obj = Undefined.
Proof. unfold getMember. intros -> Hin. by rewrite bool_decide_eq_false_2. Qed.

(** With every shared key on the same node and no other key named like a
    member of [Object.prototype], the loop keeps exactly the fields the
    base lacks, after what it had accumulated. *)
Lemma createShapeDiff_loop_clean (baseObj : ZodRawShape)
    (entries : list (string * ZodType)) :
  NoDup (map fst entries) →
  (∀ key val baseValue, (key, val) ∈ entries →
     getProp key baseObj = Some baseValue → sameNode val baseValue = true) →
  (∀ key val, (key, val) ∈ entries →
     getProp key baseObj = None → key ∉ Object_prototype_keys) →
  ∀ acc, (∀ key, key ∈ map fst entries → getProp key acc = None) →
    createShapeDiff_loop baseObj entries acc
    = Some (acc ++ absentFrom baseObj entries).
Proof.
  unfold absentFrom.
  induction entries as [|[key val] rest IH]; simpl; intros Hnd Hsame Hplain acc Hacc.
  - by rewrite app_nil_r.
  - apply NoDup_cons in Hnd as [Hkey Hnd]. unfold hasProp. simpl.
    assert (∀ k v b, (k, v) ∈ rest → getProp k baseObj = Some b →
                     sameNode v b = true) as Hrest
      by (intros k v b Hin; apply Hsame; by right).
    assert (∀ k v, (k, v) ∈ rest → getProp k baseObj = None →
                   k ∉ Object_prototype_keys) as Hrest'
      by (intros k v Hin; apply (Hplain k v); by right).
    destruct (getProp key baseObj) as [baseValue|] eqn:Hbase; simpl.
    + rewrite (getMember_own _ _ _ Hbase). simpl.
      rewrite (Hsame key val baseValue) by (done || left).
      apply IH; try done. intros k Hk. apply Hacc. by right.
    + rewrite (getMember_undefined _ _ Hbase) by (apply (Hplain key val); [left|done]).
      simpl. rewrite setProp_fresh by (apply Hacc; left).
      rewrite IH; try done.
      * by rewrite <- app_assoc.
      * intros k Hk. rewrite getProp_app, Hacc by (by right). simpl.
        destruct (String.eqb key k) eqn:E; [|done].
        apply String.eqb_eq in E. by subst.
Qed.

(** One shared key on a different node makes the loop return [null],
    wherever it stands and whatever was accumulated. *)
Lemma createShapeDiff_loop_mismatch (baseObj : ZodRawShape)
    (entries : list (string * ZodType)) (acc : ZodRawShape)
    (key : string) (val baseValue : ZodType) :
  (key, val) ∈ entries → getProp key baseObj = Some baseValue →
  sameNode val baseValue = false →
  createShapeDiff_loop baseObj entries acc = None.
Proof.
  intros Hin Hbase Hdiff. revert acc.
  induction entries as [|[k v] rest IH]; intros acc; simpl.
  - by apply elem_of_nil in Hin.
  - apply elem_of_cons in Hin as [[= <- <-]|Hin].
    + rewrite (getMember_own _ _ _ Hbase). simpl. by rewrite Hdiff.
    + destruct (strictEq v (getMember k baseObj)); [by apply IH|].
      destruct (getMember k baseObj); [by apply IH | done | done].
Qed.

(** So does one key that the base does not have itself but inherits from
    [Object.prototype]. *)
Lemma createShapeDiff_loop_inherited (baseObj : ZodRawShape)
    (entries : list (string * ZodType)) (acc : ZodRawShape)
    (key : string) (val : ZodType) :
  (key, val) ∈ entries → getProp key baseObj = None →
  key ∈ Object_prototype_keys →
  createShapeDiff_loop baseObj entries acc = None.
Proof.
  intros Hin Hbase Hproto. revert acc.
  induction entries as [|[k v] rest IH]; intros acc; simpl.
  - by apply elem_of_nil in Hin.
  - apply elem_of_cons in Hin as [[= <- <-]|Hin].
    + by rewrite (getMember_inherited _ _ Hbase Hproto).
    + destruct (strictEq v (getMember k baseObj)); [by apply IH|].
      destruct (getMember k baseObj); [by apply IH | done | done].
Qed.

(** A diff that is returned is the candidate without the keys of the base;
    the candidate then has every shared key on the base's node and no other
    key named like a member of [Object.prototype]. *)
Lemma createShapeDiff_Some_inv (baseObj extendedObj diffShape : ZodRawShape) :
  NoDup (map fst extendedObj) →
  createShapeDiff baseObj extendedObj = Some diffShape →
  diffShape = absentFrom baseObj extendedObj
  ∧ (∀ key val baseValue, (key, val) ∈ extendedObj →
       getProp key baseObj = Some baseValue → sameNode val baseValue = true)
  ∧ (∀ key val, (key, val) ∈ extendedObj →
       getProp key baseObj = None → key ∉ Object_prototype_keys).
Proof.
  intros Hnd Hdiff. unfold createShapeDiff in Hdiff.
  assert (∀ key val baseValue, (key, val) ∈ extendedObj →
            getProp key baseObj = Some baseValue → sameNode val baseValue = true)
    as Hsame.
  { intros key val bv Hin Hb. destruct (sameNode val bv) eqn:Hs; [done|].
    by rewrite (createShapeDiff_loop_mismatch _ _ _ key val bv) in Hdiff. }
  assert (∀ key val, (key, val) ∈ extendedObj →
            getProp key baseObj = None → key ∉ Object_prototype_keys) as Hplain.
  { intros key val Hin Hb Hproto.
    by rewrite (createShapeDiff_loop_inherited _ _ _ key val) in Hdiff. }
  rewrite createShapeDiff_loop_clean in Hdiff by done.
  simpl in Hdiff. by injection Hdiff as <-.
Qed.

Lemma spread_allOf_objectLiteral (v : JSON) (p : list (string * JSON))
    (required : option (list string)) (additional : SchemaObject) :
  additional = [] ∨ (∃ w, additional = [("additionalProperties", w)]) →
  spread (objectLiteral p required additional) [("allOf", v)]
  = ("allOf", v) :: objectLiteral p required additional.
Proof. intros [->|[w ->]]; by destruct required. Qed.

Section Extension.
Variable createSchemaObject : ZodType → list string → M SchemaObject.
Variable isOptionalSchema : ZodType → SchemaState → bool.

Local Abbreviation createObjectSchemaFromShape :=
  (createObjectSchemaFromShape createSchemaObject isOptionalSchema).
Local Abbreviation createExtendedSchema :=
  (createExtendedSchema createSchemaObject isOptionalSchema).
Local Abbreviation createObjectSchema :=
  (createObjectSchema createSchemaObject isOptionalSchema).

(** Spreading a converted shape after [allOf] puts [allOf] in front of it. *)
Lemma allOf_createObjectSchemaFromShape shape opts state (v : JSON) :
  match createObjectSchemaFromShape shape opts state with
  | Ok (s, _) => spread s [("allOf", v)] = ("allOf", v) :: s
  | Throw _ => True
  end.
Proof.
  rewrite createObjectSchemaFromShape_unfold.
  destruct (mapProperties_reduce _ shape [] state) as [[p state1]|e]; [|done].
  simpl. destruct (isZodType (catchAll opts) "ZodNever").
  - apply spread_allOf_objectLiteral. destruct (is_strict _); eauto.
  - destruct (createSchemaObject _ _ state1) as [[s state2]|e]; [|done].
    apply spread_allOf_objectLiteral. eauto.
Qed.

(** What [createExtendedSchema] does once the base has been looked up and,
    if registered or registrable, generated: [after] is the outcome of
    lines 63-66. *)
Lemma createExtendedSchema_unfold zodObject base state :
  createExtendedSchema zodObject (Some base) state =
    let after : Result (unit * SchemaState) :=
      if component_or_ref (schemas_get (ZObject base) state)
           (openapi_ref (ZObject base))
      then match createSchemaObject (ZObject base) ["extended schema"] state with
           | Ok (_, state1) => Ok (tt, state1)
           | Throw e => Throw e
           end
      else Ok (tt, state) in
    match after with
    | Throw e => Throw e
    | Ok (_, state1) =>
        match schemas_get (ZObject base) state1 with
        | None => Ok (None, state1)
        | Some completeComponent =>
            match createDiffOpts (optionsOf base) (optionsOf zodObject) with
            | None => Ok (None, state1)
            | Some diffOpts =>
                match createShapeDiff (obj_shape base) (obj_shape zodObject) with
                | None => Ok (None, state1)
                | Some diffShape =>
                    match createObjectSchemaFromShape diffShape diffOpts state1 with
                    | Throw e => Throw e
                    | Ok (s, state2) =>
                        Ok (Some (spread s
                              [("allOf",
                                JArr [JObj [("$ref",
                                  JStr (createComponentSchemaRef
                                          (component_ref completeComponent)))]])]),
                            state2)
                    end
                end
            end
        end
    end.
Proof.
  unfold createExtendedSchema, bind, gets, ret, optionsOf. simpl.
  destruct (component_or_ref _ _).
  - destruct (createSchemaObject (ZObject base) _ state) as [[r state1]|e]; [|done].
    destruct (schemas_get (ZObject base) state1) as [c|]; [|done].
    destruct (createDiffOpts _ _) as [diffOpts|]; [|done].
    destruct (createShapeDiff _ _) as [diffShape|]; [|done].
    by destruct (createObjectSchemaFromShape _ _ state1) as [[s state2]|e].
  - destruct (schemas_get (ZObject base) state); [|done].
    destruct (createDiffOpts _ _); [|done].
    destruct (createShapeDiff _ _); [|done].
    by destruct (createObjectSchemaFromShape _ _ state) as [[so state2]|e].
Qed.

(** Without diff options or without a diff, the optimization is not
    applied: [createExtendedSchema] returns [undefined], in the state the
    base lookup left, and [createObjectSchema] generates the object in full
    from there.  The only error that can surface is one the dispatcher
    itself throws while generating the base. *)
Lemma createExtendedSchema_no_diff zodObject base state :
  createDiffOpts (optionsOf base) (optionsOf zodObject) = None
  ∨ createShapeDiff (obj_shape base) (obj_shape zodObject) = None →
  (∃ state1,
      createExtendedSchema zodObject (Some base) state = Ok (None, state1)
      ∧ (state1 = state
         ∨ ∃ r, createSchemaObject (ZObject base) ["extended schema"] state
                = Ok (r, state1))
      ∧ (obj_extends zodObject = Some base →
         createObjectSchema zodObject state
         = createObjectSchemaFromShape (obj_shape zodObject)
             (optionsOf zodObject) state1))
  ∨ (∃ e,
      createSchemaObject (ZObject base) ["extended schema"] state = Throw e
      ∧ createExtendedSchema zodObject (Some base) state = Throw e).
Proof.
  intros Hno.
  assert (∀ state1,
    createExtendedSchema zodObject (Some base) state = Ok (None, state1) →
    obj_extends zodObject = Some base →
    createObjectSchema zodObject state
    = createObjectSchemaFromShape (obj_shape zodObject)
        (optionsOf zodObject) state1) as Hfull.
  { intros state1 Hext Hbase. unfold createObjectSchema, bind.
    rewrite Hbase. by rewrite Hext. }
  pose proof (createExtendedSchema_unfold zodObject base state) as Hu.
  cbv zeta in Hu.
  destruct (component_or_ref _ _).
  - destruct (createSchemaObject (ZObject base) _ state) as [[r state1]|e] eqn:Hgen.
    + left. exists state1.
      assert (createExtendedSchema zodObject (Some base) state = Ok (None, state1))
        as Hext.
      { rewrite Hu. destruct (schemas_get (ZObject base) state1) as [c|]; [|done].
        destruct Hno as [-> | Hno]; [done|].
        destruct (createDiffOpts _ _) as [diffOpts|]; [|done]. by rewrite Hno. }
      split; [done|]. split; [right; by exists r | by apply Hfull].
    + right. by exists e.
  - left. exists state.
    assert (createExtendedSchema zodObject (Some base) state = Ok (None, state))
      as Hext.
    { rewrite Hu. destruct (schemas_get (ZObject base) state) as [c|]; [|done].
      destruct Hno as [-> | Hno]; [done|].
      destruct (createDiffOpts _ _) as [diffOpts|]; [|done]. by rewrite Hno. }
    split; [done|]. split; [by left | by apply Hfull].
Qed.

(** What stands behind a returned extension: the dispatcher was run on the
    base, the base is registered in the state that left, options and diff
    exist, and the result is [allOf] in front of the converted diff. *)
Lemma createExtendedSchema_Some_inv zodObject base state s state2 :
  createExtendedSchema zodObject (Some base) state = Ok (Some s, state2) →
  ∃ r state1 completeComponent diffOpts diffShape o,
    createSchemaObject (ZObject base) ["extended schema"] state = Ok (r, state1)
    ∧ schemas_get (ZObject base) state1 = Some completeComponent
    ∧ createDiffOpts (optionsOf base) (optionsOf zodObject) = Some diffOpts
    ∧ createShapeDiff (obj_shape base) (obj_shape zodObject) = Some diffShape
    ∧ createObjectSchemaFromShape diffShape diffOpts state1 = Ok (o, state2)
    ∧ s = allOfRef (component_ref completeComponent) :: o.
Proof.
  rewrite createExtendedSchema_unfold. cbv zeta.
  destruct (component_or_ref _ _) eqn:Hcr.
  - destruct (createSchemaObject (ZObject base) _ state) as [[r state1]|e] eqn:Hgen;
      [|done].
    destruct (schemas_get (ZObject base) state1) as [c|] eqn:Hc; [|done].
    destruct (createDiffOpts _ _) as [diffOpts|] eqn:Ho; [|done].
    destruct (createShapeDiff _ _) as [diffShape|] eqn:Hd; [|done].
    pose proof (allOf_createObjectSchemaFromShape diffShape diffOpts state1
      (JArr [JObj [("$ref", JStr (createComponentSchemaRef (component_ref c)))]]))
      as Hs.
    destruct (createObjectSchemaFromShape diffShape diffOpts state1)
      as [[o st2]|e] eqn:Hconv; [|done].
    intros [= <- <-]. exists r, state1, c, diffOpts, diffShape, o.
    by rewrite Hs.
  - destruct (schemas_get (ZObject base) state) as [c|] eqn:Hc; [|done].
    by simpl in Hcr.
Qed.


(** C6: [createDiffOpts] gives no options when the base is strict or has a
    catch-all other than [ZodNever], and [createExtendedSchema] then
    returns [undefined], so that the object is generated in full; for a
    permissive base the options are the candidate's own [unknownKeys] and
    [catchAll], and whenever [createExtendedSchema] emits a delta, that
    delta is the conversion of the diff with the candidate's options, not
    the base's. *)
Theorem createDiffOpts_permissive_base_only (zodObject base : ZodObject) :
  (obj_unknownKeys base = Some strict
   ∨ isZodType (obj_catchall base) "ZodNever" = false →
   createDiffOpts (optionsOf base) (optionsOf zodObject) = None
   ∧ ∀ state,
       (∃ state1,
           createExtendedSchema zodObject (Some base) state = Ok (None, state1)
           ∧ (state1 = state
              ∨ ∃ r, createSchemaObject (ZObject base) ["extended schema"] state
                     = Ok (r, state1))
           ∧ (obj_extends zodObject = Some base →
              createObjectSchema zodObject state
              = createObjectSchemaFromShape (obj_shape zodObject)
                  (optionsOf zodObject) state1))
       ∨ (∃ e,
           createSchemaObject (ZObject base) ["extended schema"] state = Throw e
           ∧ createExtendedSchema zodObject (Some base) state = Throw e))
  ∧ (obj_unknownKeys base ≠ Some strict →
     isZodType (obj_catchall base) "ZodNever" = true →
     createDiffOpts (optionsOf base) (optionsOf zodObject)
     = Some {| unknownKeys := obj_unknownKeys zodObject;
               catchAll := obj_catchall zodObject |})
  ∧ (∀ state state2 s,
       createExtendedSchema zodObject (Some base) state = Ok (Some s, state2) →
       obj_unknownKeys base ≠ Some strict
       ∧ isZodType (obj_catchall base) "ZodNever" = true
       ∧ ∃ r state1 completeComponent diffShape o,
           createSchemaObject (ZObject base) ["extended schema"] state
             = Ok (r, state1)
           ∧ schemas_get (ZObject base) state1 = Some completeComponent
           ∧ createShapeDiff (obj_shape base) (obj_shape zodObject)
             = Some diffShape
           ∧ createObjectSchemaFromShape diffShape
               {| unknownKeys := obj_unknownKeys zodObject;
                  catchAll := obj_catchall zodObject |} state1
             = Ok (o, state2)
           ∧ s = allOfRef (component_ref completeComponent) :: o).
Proof.
  split; [|split].
  - intros Hclosed.
    assert (createDiffOpts (optionsOf base) (optionsOf zodObject) = None) as Hnone.
    { unfold createDiffOpts, optionsOf, is_strict. simpl.
      destruct Hclosed as [-> | ->]; [done|].
      by rewrite orb_true_r. }
    split; [done|]. intros state. apply createExtendedSchema_no_diff. by left.
  - intros Hstrict Hnever. unfold createDiffOpts, optionsOf, is_strict. simpl.
    by rewrite bool_decide_eq_false_2, Hnever.
  - intros state state2 s Hext.
    apply createExtendedSchema_Some_inv in Hext
      as (r & st1 & c & diffOpts & diffShape & o
          & Hgen & Hc & Hopts & Hdiff & Hconv & ->).
    unfold createDiffOpts, optionsOf, is_strict in Hopts. simpl in Hopts.
    case_bool_decide as Hstrict; [done|].
    destruct (isZodType (obj_catchall base) "ZodNever") eqn:Hnever; [|done].
    simpl in Hopts. injection Hopts as <-.
    split; [done|]. split; [done|]. by exists r, st1, c, diffShape, o.
Qed.

End Extension.

(** The extension example of the specification, evaluated. *)
Example extension_round_trip :
  Tests.objectSchema Tests.extendedAB Tests.registeredState
  = Ok ([("allOf", JArr [JObj [("$ref", JStr "#/components/schemas/X")]]);
         ("type", JStr "object");
         ("properties", JObj [("b", JObj [("type", JStr "string")])]);
         ("required", JArr [JStr "b"])],
        Tests.registeredState).
Proof. by vm_compute. Qed.

(** Redefining [a] by another node gives up the optimization: the object
    is generated in full. *)
Example extension_redefined_inline :
  Tests.objectSchema Tests.extendedRedefined Tests.registeredState
  = Ok ([("type", JStr "object");
         ("properties", JObj [("a", JObj [("type", JStr "string")]);
                              ("b", JObj [("type", JStr "string")])]);
         ("required", JArr [JStr "a"; JStr "b"])],
        Tests.registeredState).
Proof. by vm_compute. Qed.

(** C4, at a failing input: the base is the complete component [X] and is
    permissive, the one shared field [a] is the very same node, and the
    candidate adds a field named [toString].  [baseObj['toString']] is the
    function every object inherits, neither the candidate's node nor
    [undefined], so that [createShapeDiff] returns [null] and
    [createExtendedSchema] returns [undefined], whatever the dispatcher
    does: no [allOf] is emitted and the object is generated in full. *)
Theorem createExtendedSchema_inherited_key :
  schemas_get (ZObject Tests.baseX) Tests.registeredState
    = Some (CompleteSchemaComponent "X" Tests.schemaOfA (Some output))
  ∧ obj_unknownKeys Tests.baseX ≠ Some strict
  ∧ isZodType (obj_catchall Tests.baseX) "ZodNever" = true
  ∧ (∀ key val baseValue,
       (key, val) ∈ obj_shape Tests.extendedToString →
       getProp key (obj_shape Tests.baseX) = Some baseValue →
       sameNode val baseValue = true)
  ∧ createShapeDiff (obj_shape Tests.baseX) (obj_shape Tests.extendedToString)
    = None
  ∧ (∀ createSchemaObject isOptionalSchema state,
       match createExtendedSchema createSchemaObject isOptionalSchema
               Tests.extendedToString (Some Tests.baseX) state with
       | Ok (r, _) => r = None
       | Throw _ => True
       end)
  ∧ Tests.extend Tests.extendedToString Tests.registeredState
    = Ok (None, Tests.registeredState)
  ∧ Tests.objectSchema Tests.extendedToString Tests.registeredState
    = Ok ([("type", JStr "object");
           ("properties", JObj [("a", JObj [("type", JStr "string")]);
                                ("toString", JObj [("type", JStr "string")])]);
           ("required", JArr [JStr "a"; JStr "toString"])],
          Tests.registeredState).
Proof.
  split; [by vm_compute|]. split; [done|]. split; [done|]. split.
  { simpl. intros key val baseValue Hin Hbase.
    apply elem_of_cons in Hin as [Hin|Hin].
    - injection Hin as -> ->. vm_compute in Hbase. injection Hbase as <-.
      reflexivity.
    - apply list_elem_of_singleton in Hin. injection Hin as -> ->.
      vm_compute in Hbase. discriminate Hbase. }
  split; [by vm_compute|]. split.
  { intros cso opt state.
    destruct (createExtendedSchema_no_diff cso opt Tests.extendedToString
                Tests.baseX state) as [(st1 & -> & _) | (e & _ & ->)];
      [right; by vm_compute | done | done]. }
  split; by vm_compute.
Qed.


Lemma createDiffOpts_permissive_base_only_witness :
  createDiffOpts (optionsOf Tests.baseStrict) (optionsOf Tests.extendedOfStrict)
  = None.
Proof.
  refine (proj1 (proj1 (createDiffOpts_permissive_base_only
                          (plainSchemaObject 5) plainIsOptionalSchema
                          Tests.extendedOfStrict Tests.baseStrict) _)).
  left. reflexivity.
Defined.

(* ------------------------------------------------------------------ *)
(** ** The discriminated-union converter *)

(** One value added first-come: an entry already there stays as it is. *)
Lemma addMapping_get (componentSchemaRef : string) (values : list string)
    (mapping : list (string * JSON)) (value : string) :
  getProp value (addMapping componentSchemaRef values mapping)
  = match getProp value mapping with
    | Some v => Some v
    | None => if decide (value ∈ values) then Some (JStr componentSchemaRef)
              else None
    end.
Proof.
  unfold addMapping. revert mapping.
  induction values as [|v vs IH]; intros mapping.
  - simpl. by destruct (getProp value mapping).
  - simpl fold_left. rewrite IH. unfold hasProp. clear IH.
    assert (value ∈ v :: vs ↔ value = v ∨ value ∈ vs) as Hcons
      by apply elem_of_cons.
    destruct (getProp v mapping) as [x|] eqn:Hv.
    + destruct (getProp value mapping) eqn:Hm; [done|].
      destruct (decide (value ∈ vs)), (decide (value ∈ v :: vs)); try done.
      * tauto.
      * assert (value = v) as -> by tauto. congruence.
    + destruct (decide (v = value)) as [->|Hne].
      * rewrite getProp_setProp_eq, Hv.
        destruct (decide (value ∈ value :: vs)); [done | tauto].
      * rewrite getProp_setProp_ne by done.
        destruct (getProp value mapping); [done|].
        destruct (decide (value ∈ vs)), (decide (value ∈ v :: vs)); try done.
        -- tauto.
        -- assert (value = v) as -> by tauto. done.
Qed.

Lemma addMapping_NoDup (componentSchemaRef : string) (values : list string)
    (mapping : list (string * JSON)) :
  NoDup (map fst mapping) →
  NoDup (map fst (addMapping componentSchemaRef values mapping)).
Proof.
  unfold addMapping. revert mapping.
  induction values as [|v vs IH]; intros mapping Hnd; simpl; [done|].
  apply IH. unfold hasProp.
  destruct (getProp v mapping) eqn:Hv; [done|].
  rewrite setProp_fresh, map_app by done. simpl.
  apply NoDup_app. split; [done|]. split; [|apply NoDup_singleton].
  intros k Hk ->%list_elem_of_singleton.
  by apply getProp_None_not_in in Hv.
Qed.

Section DiscriminatedUnion.
Variable createSchemaObject : ZodType → list string → M SchemaObject.

Local Abbreviation createDiscriminatedUnionSchema :=
  (createDiscriminatedUnionSchema createSchemaObject).
Local Abbreviation createOptionSchemas := (createOptionSchemas createSchemaObject).

(** One member without a component record stops the mapping. *)
Lemma mapDiscriminator_loop_None (options : list ZodObject)
    (discriminator : string) (state : SchemaState) (mapping : list (string * JSON)) :
  mapDiscriminator_loop options discriminator state mapping = None ↔
  ∃ member, member ∈ options ∧ schemas_get (ZObject member) state = None.
Proof.
  revert mapping. induction options as [|m rest IH]; intros mapping; simpl.
  - split; [done|]. intros (? & []%elem_of_nil & _).
  - destruct (schemas_get (ZObject m) state) as [c|] eqn:Hm.
    + rewrite IH. split.
      * intros (x & Hin & Hx). exists x. split; [by right | done].
      * intros (x & [->|Hin]%elem_of_cons & Hx); [congruence|]. by exists x.
    + split; [|done]. intros _. exists m. split; [left | done].
Qed.

(** What a completed mapping holds. *)
Lemma mapDiscriminator_loop_Some (discriminator : string) (state : SchemaState)
    (options : list ZodObject) :
  ∀ mapping result,
  mapDiscriminator_loop options discriminator state mapping = Some result →
  (∀ value v, getProp value mapping = Some v → getProp value result = Some v)
  ∧ (∀ i member component value,
       options !! i = Some member →
       schemas_get (ZObject member) state = Some component →
       value ∈ discriminatorValues member discriminator →
       is_Some (getProp value result)
       ∧ (getProp value mapping = None →
          (∀ j earlier, j < i → options !! j = Some earlier →
             value ∉ discriminatorValues earlier discriminator) →
          getProp value result
          = Some (JStr (createComponentSchemaRef (component_ref component)))))
  ∧ (∀ value, is_Some (getProp value result) →
       is_Some (getProp value mapping)
       ∨ ∃ member, member ∈ options
                   ∧ value ∈ discriminatorValues member discriminator)
  ∧ (NoDup (map fst mapping) → NoDup (map fst result)).
Proof.
  induction options as [|m rest IH]; intros mapping result; simpl.
  - intros [= <-]. split; [done|]. split; [|split; [by left | done]].
    intros i member component value Hi. by rewrite lookup_nil in Hi.
  - destruct (schemas_get (ZObject m) state) as [c|] eqn:Hm; [|done].
    intros Hloop. apply IH in Hloop as (Hkeep & Hmembers & Hkeys & Hnd).
    split; [|split; [|split]].
    + intros value v Hv. apply Hkeep. by rewrite addMapping_get, Hv.
    + intros i member component value Hi Hc Hval. destruct i as [|i]; simpl in Hi.
      * injection Hi as <-. rewrite Hm in Hc. injection Hc as <-.
        assert (∀ v, getProp value mapping = v →
                  getProp value
                    (addMapping (createComponentSchemaRef (component_ref c))
                       (discriminatorValues m discriminator) mapping)
                  = match v with
                    | Some x => Some x
                    | None => Some (JStr (createComponentSchemaRef (component_ref c)))
                    end) as Hadd.
        { intros v <-. rewrite addMapping_get.
          destruct (getProp value mapping); [done|]. by rewrite decide_True. }
        split.
        -- destruct (getProp value mapping) as [x|] eqn:Hx.
           ++ exists x. apply Hkeep. by apply (Hadd (Some x)).
           ++ eexists. apply Hkeep. by apply (Hadd None).
        -- intros Hfresh _. apply Hkeep. by apply (Hadd None).
      * destruct (Hmembers i member component value Hi Hc Hval) as [Hsome Hfirst].
        split; [done|]. intros Hfresh Hearlier. apply Hfirst.
        -- rewrite addMapping_get, Hfresh. rewrite decide_False; [done|].
           apply (Hearlier 0 m); [lia | done].
        -- intros j earlier Hj Hlook. apply (Hearlier (S j) earlier); [lia | done].
    + intros value Hsome. destruct (Hkeys value Hsome) as [Hin | (x & Hin & Hx)].
      * rewrite addMapping_get in Hin.
        destruct (getProp value mapping) as [v|]; [left; by eexists|].
        right. exists m. split; [left|].
        destruct (decide (value ∈ discriminatorValues m discriminator)); [done|].
        by destruct Hin.
      * right. exists x. split; [by right | done].
    + intros Hmap. by apply Hnd, addMapping_NoDup.
Qed.

(** C7: once the members have been converted, the [discriminator] block is
    built only if every member has a component record.  If one has none,
    the result is the [oneOf] list alone.  If all have one, the result is
    [oneOf] followed by [discriminator], whose mapping has exactly one entry
    for each value of each member's discriminator field (a literal's value,
    each value of an enum) and no other entry; a value's entry is the
    reference path of the member that lists it, the first such member
    should several list the same value. *)
Theorem createDiscriminatedUnionSchema_discriminator
    (zodDiscriminatedUnion : ZodDiscriminatedUnion)
    (state state1 : SchemaState) (schemas : list SchemaObject) :
  createOptionSchemas (du_options zodDiscriminatedUnion) 0 state
    = Ok (schemas, state1) →
  ((∃ member, member ∈ du_options zodDiscriminatedUnion
              ∧ schemas_get (ZObject member) state1 = None) →
   createDiscriminatedUnionSchema zodDiscriminatedUnion state
   = Ok ([("oneOf", JArr (map JObj schemas))], state1))
  ∧ ((∀ member, member ∈ du_options zodDiscriminatedUnion →
                is_Some (schemas_get (ZObject member) state1)) →
     ∃ mapping,
       createDiscriminatedUnionSchema zodDiscriminatedUnion state
       = Ok ([("oneOf", JArr (map JObj schemas));
              ("discriminator",
                JObj [("propertyName", JStr (du_discriminator zodDiscriminatedUnion));
                      ("mapping", JObj mapping)])],
             state1)
       ∧ NoDup (map fst mapping)
       ∧ (∀ value, is_Some (getProp value mapping) ↔
            ∃ member, member ∈ du_options zodDiscriminatedUnion
                      ∧ value ∈ discriminatorValues member
                                  (du_discriminator zodDiscriminatedUnion))
       ∧ (∀ i member component value,
            du_options zodDiscriminatedUnion !! i = Some member →
            schemas_get (ZObject member) state1 = Some component →
            value ∈ discriminatorValues member
                      (du_discriminator zodDiscriminatedUnion) →
            (∀ j earlier, j < i →
               du_options zodDiscriminatedUnion !! j = Some earlier →
               value ∉ discriminatorValues earlier
                         (du_discriminator zodDiscriminatedUnion)) →
            getProp value mapping
            = Some (JStr (createComponentSchemaRef (component_ref component))))).
Proof.
  intros Hconv.
  unfold createDiscriminatedUnionSchema, bind, gets, ret, mapDiscriminator.
  rewrite Hconv. split.
  - intros Hmissing.
    apply (mapDiscriminator_loop_None _ (du_discriminator zodDiscriminatedUnion)
             state1 []) in Hmissing.
    by rewrite Hmissing.
  - intros Hall.
    destruct (mapDiscriminator_loop (du_options zodDiscriminatedUnion)
                (du_discriminator zodDiscriminatedUnion) state1 [])
      as [mapping|] eqn:Hloop.
    + exists mapping. split; [done|].
      apply mapDiscriminator_loop_Some in Hloop as (_ & Hmembers & Hkeys & Hnd).
      split; [apply Hnd; constructor|]. split.
      * intros value. split.
        -- intros Hsome. destruct (Hkeys value Hsome) as [[? [=]]|Hm]; done.
        -- intros (member & Hin & Hval).
           apply list_elem_of_lookup in Hin as [i Hi].
           destruct (Hall member) as [component Hc];
             [by eapply list_elem_of_lookup_2|].
           by apply (Hmembers i member component value).
      * intros i member component value Hi Hc Hval Hearlier.
        by apply (Hmembers i member component value).
    + apply mapDiscriminator_loop_None in Hloop as (member & Hin & Hnone).
      destruct (Hall member Hin) as [c Hc]. congruence.
Qed.

End DiscriminatedUnion.

(** With one member unregistered there is no [discriminator] at all, not
    even for the member that is registered. *)
Example discriminator_not_partial :
  fragment (Tests.discriminatedUnion Tests.unionCDhalf createOutputState)
  = Ok [("oneOf", JArr [Tests.literalObject "c";
                        JObj [("$ref", JStr "#/components/schemas/d")]])].
Proof. by vm_compute. Qed.

Lemma createDiscriminatedUnionSchema_discriminator_witness :
  fragment (Tests.discriminatedUnion Tests.unionCDhalf createOutputState)
  = Ok [("oneOf", JArr [Tests.literalObject "c";
                        JObj [("$ref", JStr "#/components/schemas/d")]])]
  ∧ ∃ mapping,
      fragment (Tests.discriminatedUnion Tests.unionCD createOutputState)
      = Ok [("oneOf", JArr [JObj [("$ref", JStr "#/components/schemas/c")];
                            JObj [("$ref", JStr "#/components/schemas/d")]]);
            ("discriminator",
              JObj [("propertyName", JStr "type"); ("mapping", JObj mapping)])]
      ∧ getProp "e" mapping = Some (JStr "#/components/schemas/d").
Proof.
  split.
  - destruct (Tests.optionSchemas Tests.unionCDhalf createOutputState)
      as [[schemas state1]|e] eqn:Hconv; [|by vm_compute in Hconv].
    unfold Tests.discriminatedUnion.
    rewrite (proj1 (createDiscriminatedUnionSchema_discriminator
                      (plainSchemaObject 5) Tests.unionCDhalf
                      createOutputState state1 schemas Hconv)).
    + vm_compute in Hconv. injection Hconv as <- <-. reflexivity.
    + exists (Tests.object (Tests.plain 11) [("type", ZLiteral (Tests.plain 12) "c")]).
      split; [left|]. vm_compute in Hconv. injection Hconv as <- <-.
      vm_compute. reflexivity.
  - destruct (Tests.optionSchemas Tests.unionCD createOutputState)
      as [[schemas state1]|e] eqn:Hconv; [|by vm_compute in Hconv].
    destruct (proj2 (createDiscriminatedUnionSchema_discriminator
                       (plainSchemaObject 5) Tests.unionCD
                       createOutputState state1 schemas Hconv))
      as (mapping & Hresult & _ & _ & Hentry).
    + vm_compute in Hconv. injection Hconv as <- <-.
      intros member Hin. simpl in Hin.
      apply elem_of_cons in Hin as [->|Hin]; [vm_compute; eauto|].
      apply list_elem_of_singleton in Hin as ->. vm_compute. eauto.
    + exists mapping. unfold Tests.discriminatedUnion. rewrite Hresult.
      vm_compute in Hconv. injection Hconv as <- <-.
      split; [reflexivity|].
      set (member := Tests.object (Tests.withRef 13 "d")
                       [("type", ZEnum (Tests.plain 14) ["d"; "e"])]).
      match type of Hentry with
      | context [schemas_get _ ?st] =>
          assert (∃ so, schemas_get (ZObject member) st
                        = Some (CompleteSchemaComponent "d" so (Some output)))
            as [so Hc] by (vm_compute; eauto)
      end.
      apply (Hentry 1 member (CompleteSchemaComponent "d" so (Some output)) "e").
      * reflexivity.
      * exact Hc.
      * vm_compute. right. left.
      * intros j earlier Hj Hlook. destruct j as [|j]; [|lia].
        injection Hlook as <-. vm_compute.
        intros Hin. apply list_elem_of_singleton in Hin. discriminate Hin.
Defined.

(** Converting the same unregistered shape twice in one traversal, the
    second time from the state the first left. *)
Example conversion_twice_same_fragment :
  match Tests.convert Tests.shapeABC Tests.strictCatchallOpts createInputState with
  | Ok (first, state1) =>
      fragment (Tests.convert Tests.shapeABC Tests.strictCatchallOpts state1)
      = Ok first
  | Throw _ => False
  end.
Proof. by vm_compute. Qed.

Example mapRequired_declaration_order :
  mapRequired plainIsOptionalSchema Tests.shapeABC createOutputState
  = Some ["a"; "c"]
  ∧ mapRequired plainIsOptionalSchema
      [("b", ZOptional (Tests.plain 42) (ZString (Tests.plain 43)))]
      createOutputState
    = None.
Proof. done. Qed.

(* ------------------------------------------------------------------ *)
(** ** More on the shape diff *)

Lemma getProp_in_NoDup {V : Type} (key : string) (v : V) (obj : list (string * V)) :
  NoDup (map fst obj) → (key, v) ∈ obj → getProp key obj = Some v.
Proof.
  induction obj as [|[k w] rest IH]; simpl; intros Hnd Hin.
  - by apply elem_of_nil in Hin.
  - apply NoDup_cons in Hnd as [Hk Hnd].
    apply elem_of_cons in Hin as [[= <- <-]|Hin].
    + by rewrite String.eqb_refl.
    + destruct (String.eqb k key) eqn:E; [|auto].
      apply String.eqb_eq in E. subst k. exfalso. apply Hk.
      apply list_elem_of_In, in_map_iff. exists (key, v).
      split; [done | by apply list_elem_of_In].
Qed.

Lemma sameNode_refl (z : ZodType) : sameNode z z = true.
Proof. apply Pos.eqb_refl. Qed.

(** The loop returns [null] only at a key that the base has with another
    node, or that it does not have but inherits. *)
Lemma createShapeDiff_loop_None_inv (baseObj : ZodRawShape)
    (entries : list (string * ZodType)) (acc : ZodRawShape) :
  createShapeDiff_loop baseObj entries acc = None →
  ∃ key val,
    (key, val) ∈ entries
    ∧ ((∃ baseValue, getProp key baseObj = Some baseValue
                     ∧ sameNode val baseValue = false)
       ∨ (getProp key baseObj = None ∧ key ∈ Object_prototype_keys)).
Proof.
  revert acc. induction entries as [|[k v] rest IH]; intros acc; simpl; [done|].
  unfold getMember. destruct (getProp k baseObj) as [b|] eqn:Hb; simpl.
  - destruct (sameNode v b) eqn:Hs.
    + intros H. destruct (IH _ H) as (key & val & Hin & ?).
      exists key, val. split; [by right | done].
    + intros _. exists k, v. split; [left | left; by exists b].
  - case_bool_decide as Hproto; simpl.
    + intros _. exists k, v. split; [left | by right].
    + intros H. destruct (IH _ H) as (key & val & Hin & ?).
      exists key, val. split; [by right | done].
Qed.

Lemma absentFrom_sublist (baseObj extendedObj : ZodRawShape) :
  sublist (absentFrom baseObj extendedObj) extendedObj.
Proof.
  unfold absentFrom. induction extendedObj as [|kv rest IH]; simpl; [constructor|].
  destruct (negb (hasProp kv.1 baseObj)); by constructor.
Qed.

Lemma absentFrom_elem (baseObj extendedObj : ZodRawShape) (key : string) (val : ZodType) :
  (key, val) ∈ absentFrom baseObj extendedObj ↔
  (key, val) ∈ extendedObj ∧ getProp key baseObj = None.
Proof.
  unfold absentFrom, hasProp. rewrite !list_elem_of_In, filter_In. simpl.
  destruct (getProp key baseObj); simpl; split; intros [? ?]; done.
Qed.

(** X1: [createShapeDiff] returns [null] exactly when some field of the
    candidate has a key that the base has too, with another node, or a key
    that the base does not have itself but inherits from
    [Object.prototype] (such as [toString] or [constructor]). *)
Theorem createShapeDiff_null_iff (baseObj extendedObj : ZodRawShape) :
  createShapeDiff baseObj extendedObj = None ↔
  ∃ key val,
    (key, val) ∈ extendedObj
    ∧ ((∃ baseValue, getProp key baseObj = Some baseValue
                     ∧ sameNode val baseValue = false)
       ∨ (getProp key baseObj = None ∧ key ∈ Object_prototype_keys)).
Proof.
  split.
  - apply createShapeDiff_loop_None_inv.
  - intros (key & val & Hin & [(bv & Hb & Hs) | [Hb Hproto]]).
    + by eapply createShapeDiff_loop_mismatch.
    + by eapply createShapeDiff_loop_inherited.
Qed.

(** X2: a diff that is returned is the candidate without the fields whose
    key the base has: it keeps the candidate's order, shares no key with
    the base, and every field it leaves out is the base's own node. *)
Theorem createShapeDiff_result (baseObj extendedObj diffShape : ZodRawShape) :
  NoDup (map fst extendedObj) →
  createShapeDiff baseObj extendedObj = Some diffShape →
  diffShape = absentFrom baseObj extendedObj
  ∧ sublist diffShape extendedObj
  ∧ (∀ key val, (key, val) ∈ diffShape → getProp key baseObj = None)
  ∧ (∀ key val, (key, val) ∈ extendedObj →
       (key, val) ∈ diffShape
       ∨ ∃ baseValue, getProp key baseObj = Some baseValue
                      ∧ sameNode val baseValue = true).
Proof.
  intros Hnd Hdiff.
  apply createShapeDiff_Some_inv in Hdiff as (-> & Hsame & _); [|done].
  split; [done|]. split; [apply absentFrom_sublist|]. split.
  - intros key val Hin. by apply absentFrom_elem in Hin as [_ ?].
  - intros key val Hin. destruct (getProp key baseObj) as [bv|] eqn:Hb.
    + right. exists bv. split; [done|]. by eapply Hsame.
    + left. by apply absentFrom_elem.
Qed.

(** X3: the edges of the diff.  An empty candidate has the empty diff.
    Over an empty base the diff is the whole candidate if none of its keys
    is a name inherited from [Object.prototype], and [null] if one is.  A
    shape diffed with itself gives the empty diff, never [null]. *)
Theorem createShapeDiff_edges (shape : ZodRawShape) :
  createShapeDiff shape [] = Some []
  ∧ (NoDup (map fst shape) →
     (∀ key, key ∈ map fst shape → key ∉ Object_prototype_keys) →
     createShapeDiff [] shape = Some shape)
  ∧ (∀ key, key ∈ map fst shape → key ∈ Object_prototype_keys →
     createShapeDiff [] shape = None)
  ∧ (NoDup (map fst shape) → createShapeDiff shape shape = Some []).
Proof.
  split; [done|]. split; [|split].
  - intros Hnd Hplain. unfold createShapeDiff.
    rewrite createShapeDiff_loop_clean; try done.
    + simpl. f_equal. clear.
      unfold absentFrom. induction shape as [|kv rest IH]; simpl; [done|].
      by f_equal.
    + intros key val Hin _. apply Hplain.
      apply list_elem_of_In, in_map_iff. exists (key, val).
      split; [done | by apply list_elem_of_In].
  - intros key Hkey Hproto.
    apply list_elem_of_In, in_map_iff in Hkey as ([k val] & <- & Hin).
    apply list_elem_of_In in Hin. simpl in Hproto.
    by eapply createShapeDiff_loop_inherited.
  - intros Hnd. unfold createShapeDiff.
    rewrite createShapeDiff_loop_clean; try done.
    + simpl. f_equal.
      destruct (absentFrom shape shape) as [|[k v] rest] eqn:E; [done|].
      assert ((k, v) ∈ absentFrom shape shape) as Hin by (rewrite E; left).
      apply absentFrom_elem in Hin as [Hin Hnone].
      by rewrite (getProp_in_NoDup k v shape) in Hnone.
    + intros key val bv Hin Hb.
      rewrite (getProp_in_NoDup key val shape) in Hb by done.
      injection Hb as <-. apply sameNode_refl.
    + intros key val Hin Hb.
      by rewrite (getProp_in_NoDup key val shape) in Hb.
Qed.

(** X4: fields that only the base has play no part: adding to the base
    fields whose keys the candidate does not use leaves the diff as it is. *)
Theorem createShapeDiff_base_only_fields (baseObj extra extendedObj : ZodRawShape) :
  (∀ key, key ∈ map fst extendedObj → key ∉ map fst extra) →
  createShapeDiff (baseObj ++ extra) extendedObj
  = createShapeDiff baseObj extendedObj.
Proof.
  unfold createShapeDiff. generalize (@nil (string * ZodType)) as acc.
  induction extendedObj as [|[k v] rest IH]; intros acc Hfresh; simpl; [done|].
  assert (getMember k (baseObj ++ extra) = getMember k baseObj) as ->.
  { unfold getMember. rewrite getProp_app.
    destruct (getProp k baseObj); [done|].
    assert (getProp k extra = None) as ->; [|done].
    apply getProp_None_not_in, Hfresh. simpl. left. }
  assert (∀ key, key ∈ map fst rest → key ∉ map fst extra) as Hrest
    by (intros key Hkey; apply Hfresh; simpl; by right).
  destruct (strictEq v (getMember k baseObj)); [by apply IH|].
  destruct (getMember k baseObj); [by apply IH | done | done].
Qed.

(* ------------------------------------------------------------------ *)
(** ** More on the shape/property mapper *)

Lemma setProp_keys {V : Type} (key key' : string) (v : V) (obj : list (string * V)) :
  key' ∈ map fst (setProp key v obj) ↔ key' = key ∨ key' ∈ map fst obj.
Proof.
  induction obj as [|[k w] rest IH]; simpl.
  - rewrite list_elem_of_singleton. split; [by left | intros [?|?%elem_of_nil]; done].
  - destruct (String.eqb k key) eqn:E; simpl.
    + apply String.eqb_eq in E. subst k. rewrite elem_of_cons. tauto.
    + rewrite !elem_of_cons, IH. tauto.
Qed.

Section ShapeMapperMore.
Variable createSchemaObject : ZodType → list string → M SchemaObject.
Variable isOptionalSchema : ZodType → SchemaState → bool.

Local Abbreviation mapProperties := (mapProperties createSchemaObject).
Local Abbreviation mapProperties_reduce := (mapProperties_reduce createSchemaObject).
Local Abbreviation convertEach := (convertEach createSchemaObject).
Local Abbreviation mapRequired := (mapRequired isOptionalSchema).
Local Abbreviation requiredKeys := (requiredKeys isOptionalSchema).
Local Abbreviation createObjectSchemaFromShape :=
  (createObjectSchemaFromShape createSchemaObject isOptionalSchema).
Local Abbreviation createExtendedSchema :=
  (createExtendedSchema createSchemaObject isOptionalSchema).
Local Abbreviation createObjectSchema :=
  (createObjectSchema createSchemaObject isOptionalSchema).

(** Reducing over two runs of fields is reducing over the first, then over
    the second from the accumulator and the state the first left. *)
Lemma mapProperties_reduce_app (pre post : list (string * ZodType))
    (acc : list (string * JSON)) (state : SchemaState) :
  mapProperties_reduce (pre ++ post) acc state =
    match mapProperties_reduce pre acc state with
    | Ok (acc', state') => mapProperties_reduce post acc' state'
    | Throw e => Throw e
    end.
Proof.
  revert acc state. induction pre as [|[k z] rest IH]; intros acc state; simpl; [done|].
  unfold bind. destruct (createSchemaObject z _ state) as [[f st1]|e]; [|done].
  apply IH.
Qed.

Lemma convertEach_length (entries : list (string * ZodType)) state frs state' :
  convertEach entries state = Ok (frs, state') → length frs = length entries.
Proof.
  revert state frs. induction entries as [|[k z] rest IH]; intros state frs; simpl.
  - by intros [= <- <-].
  - unfold bind, ret. destruct (createSchemaObject z _ state) as [[f st1]|e]; [|done].
    destruct (convertEach rest st1) as [[fs st2]|e] eqn:Hrest; [|done].
    intros [= <- <-]. simpl. f_equal. by eapply IH.
Qed.

(** With distinct keys none of which is in the accumulator, every
    assignment of the reduce appends. *)
Lemma mapProperties_reduce_convertEach (entries : list (string * ZodType)) :
  NoDup (map fst entries) →
  ∀ acc state, (∀ key, key ∈ map fst entries → getProp key acc = None) →
    mapProperties_reduce entries acc state =
      match convertEach entries state with
      | Ok (frs, state') => Ok (acc ++ zip (map fst entries) (map JObj frs), state')
      | Throw e => Throw e
      end.
Proof.
  induction entries as [|[k z] rest IH]; intros Hnd acc state Hacc; simpl.
  - unfold ret. by rewrite app_nil_r.
  - apply NoDup_cons in Hnd as [Hk Hnd]. unfold bind, ret.
    destruct (createSchemaObject z _ state) as [[f st1]|e]; [|done].
    rewrite IH; [|done|].
    + destruct (convertEach rest st1) as [[fs st2]|e]; [|done].
      rewrite setProp_fresh by (apply Hacc; left). by rewrite <- app_assoc.
    + intros key Hkey. rewrite getProp_setProp_ne by (intros ->; done).
      apply Hacc. by right.
Qed.

Lemma mapProperties_reduce_keys (entries : list (string * ZodType)) :
  ∀ acc state p state',
    mapProperties_reduce entries acc state = Ok (p, state') →
    ∀ key, key ∈ map fst p ↔ key ∈ map fst acc ∨ key ∈ map fst entries.
Proof.
  induction entries as [|[k z] rest IH]; intros acc state p state'; simpl.
  - intros [= <- <-] key. split; [by left | intros [?|?%elem_of_nil]; done].
  - unfold bind. destruct (createSchemaObject z _ state) as [[f st1]|e]; [|done].
    intros Hrest key. rewrite (IH _ _ _ _ Hrest), setProp_keys, elem_of_cons. tauto.
Qed.


(** X6: an error of the dispatcher comes out unchanged, and stops the
    conversion: at the first field whose conversion throws, and at the
    catch-all when it is converted and throws. *)
Theorem createObjectSchemaFromShape_error (shape : ZodRawShape)
    (opts : AdditionalPropertyOptions) (state : SchemaState) (e : string) :
  (∀ pre key zodSchema post acc state1,
     shape = pre ++ (key, zodSchema) :: post →
     mapProperties_reduce pre [] state = Ok (acc, state1) →
     createSchemaObject zodSchema ["property: " +:+ key] state1 = Throw e →
     mapProperties shape state = Throw e
     ∧ createObjectSchemaFromShape shape opts state = Throw e)
  ∧ (∀ p state1,
       mapProperties_reduce shape [] state = Ok (p, state1) →
       isZodType (catchAll opts) "ZodNever" = false →
       createSchemaObject (catchAll opts) ["additional properties"] state1 = Throw e →
       createObjectSchemaFromShape shape opts state = Throw e).
Proof.
  split.
  - intros pre key z post acc state1 -> Hpre Hthrow.
    assert (mapProperties_reduce (pre ++ (key, z) :: post) [] state = Throw e) as Hred.
    { rewrite mapProperties_reduce_app, Hpre. simpl. unfold bind. by rewrite Hthrow. }
    split.
    + unfold mapProperties, bind. by rewrite Hred.
    + by rewrite createObjectSchemaFromShape_unfold, Hred.
  - intros p state1 Hp Hnever Hthrow.
    by rewrite createObjectSchemaFromShape_unfold, Hp, Hnever, Hthrow.
Qed.

Lemma createObjectSchema_unfold (zodObject : ZodObject) (state : SchemaState) :
  createObjectSchema zodObject state =
    match createExtendedSchema zodObject (obj_extends zodObject) state with
    | Ok (Some s, state1) => Ok (s, state1)
    | Ok (None, state1) =>
        createObjectSchemaFromShape (obj_shape zodObject) (optionsOf zodObject) state1
    | Throw e => Throw e
    end.
Proof.
  unfold createObjectSchema, bind.
  by destruct (createExtendedSchema _ _ state) as [[[s|] state1]|e].
Qed.

(** X7: the object parser raises no error of its own.  With a dispatcher
    that always returns, [createObjectSchemaFromShape],
    [createExtendedSchema] and [createObjectSchema] always return. *)
Theorem object_parser_no_error_of_its_own :
  (∀ z subpath state, ∃ s state',
     createSchemaObject z subpath state = Ok (s, state')) →
  (∀ shape opts state, ∃ o state',
     createObjectSchemaFromShape shape opts state = Ok (o, state'))
  ∧ (∀ zodObject baseZodObject state, ∃ r state',
       createExtendedSchema zodObject baseZodObject state = Ok (r, state'))
  ∧ (∀ zodObject state, ∃ o state',
       createObjectSchema zodObject state = Ok (o, state')).
Proof.
  intros Htotal.
  assert (∀ entries acc state, ∃ p state',
            mapProperties_reduce entries acc state = Ok (p, state')) as Hred.
  { induction entries as [|[k z] rest IH]; intros acc state; simpl; [by eexists _, _|].
    unfold bind. destruct (Htotal z ["property: " +:+ k] state) as (f & st1 & ->).
    apply IH. }
  assert (∀ shape opts state, ∃ o state',
            createObjectSchemaFromShape shape opts state = Ok (o, state')) as Hshape.
  { intros shape opts state. rewrite createObjectSchemaFromShape_unfold.
    destruct (Hred shape [] state) as (p & st1 & ->). simpl.
    destruct (isZodType (catchAll opts) "ZodNever"); [by eexists _, _|].
    destruct (Htotal (catchAll opts) ["additional properties"] st1) as (f & st2 & ->).
    by eexists _, _. }
  assert (∀ zodObject baseZodObject state, ∃ r state',
            createExtendedSchema zodObject baseZodObject state = Ok (r, state'))
    as Hext.
  { intros zodObject [base|] state; [|by eexists _, _].
    rewrite createExtendedSchema_unfold. cbv zeta.
    assert (∃ st1,
      (if component_or_ref (schemas_get (ZObject base) state)
            (openapi_ref (ZObject base))
       then match createSchemaObject (ZObject base) ["extended schema"] state with
            | Ok (_, state1) => Ok (tt, state1)
            | Throw e => Throw e
            end
       else Ok (tt, state)) = Ok (tt, st1)) as [st1 ->].
    { destruct (component_or_ref _ _); [|by eexists].
      destruct (Htotal (ZObject base) ["extended schema"] state) as (f & st1 & ->).
      by eexists. }
    destruct (schemas_get (ZObject base) st1) as [c|]; [|by eexists _, _].
    destruct (createDiffOpts _ _) as [diffOpts|]; [|by eexists _, _].
    destruct (createShapeDiff _ _) as [diffShape|]; [|by eexists _, _].
    destruct (Hshape diffShape diffOpts st1) as (o & st2 & ->). by eexists _, _. }
  split; [done|]. split; [done|].
  intros zodObject state. rewrite createObjectSchema_unfold.
  destruct (Hext zodObject (obj_extends zodObject) state) as ([s|] & st1 & ->).
  - by eexists _, _.
  - apply Hshape.
Qed.

(** X8: the object parser changes the traversal state through the
    dispatcher only.  Any reflexive and transitive relation between the
    state before and the state after that holds of every dispatcher call
    holds of [createObjectSchemaFromShape], [createExtendedSchema] and
    [createObjectSchema]. *)
Theorem object_parser_frame (R : SchemaState → SchemaState → Prop) :
  (∀ state, R state state) →
  (∀ s1 s2 s3, R s1 s2 → R s2 s3 → R s1 s3) →
  (∀ z subpath state s state',
     createSchemaObject z subpath state = Ok (s, state') → R state state') →
  (∀ shape opts state o state',
     createObjectSchemaFromShape shape opts state = Ok (o, state') → R state state')
  ∧ (∀ zodObject baseZodObject state r state',
       createExtendedSchema zodObject baseZodObject state = Ok (r, state') →
       R state state')
  ∧ (∀ zodObject state o state',
       createObjectSchema zodObject state = Ok (o, state') → R state state').
Proof.
  intros Hrefl Htrans Hstep.
  assert (∀ entries acc state p state',
            mapProperties_reduce entries acc state = Ok (p, state') → R state state')
    as Hred.
  { induction entries as [|[k z] rest IH]; intros acc state p state'; simpl.
    - intros [= _ <-]. apply Hrefl.
    - unfold bind. destruct (createSchemaObject z _ state) as [[f st1]|e] eqn:Hz; [|done].
      intros Hrest. eapply Htrans; [by eapply Hstep | by eapply IH]. }
  assert (∀ shape opts state o state',
            createObjectSchemaFromShape shape opts state = Ok (o, state') →
            R state state') as Hshape.
  { intros shape opts state o state'. rewrite createObjectSchemaFromShape_unfold.
    destruct (mapProperties_reduce shape [] state) as [[p st1]|e] eqn:Hp; [|done].
    apply Hred in Hp. simpl.
    destruct (isZodType (catchAll opts) "ZodNever"); [by intros [= _ <-]|].
    destruct (createSchemaObject _ _ st1) as [[f st2]|e] eqn:Hc; [|done].
    intros [= _ <-]. eapply Htrans; [done | by eapply Hstep]. }
  assert (∀ zodObject baseZodObject state r state',
            createExtendedSchema zodObject baseZodObject state = Ok (r, state') →
            R state state') as Hext.
  { intros zodObject [base|] state r state'; [|intros [= _ <-]; apply Hrefl].
    rewrite createExtendedSchema_unfold. cbv zeta.
    assert (∀ st1,
      (if component_or_ref (schemas_get (ZObject base) state)
            (openapi_ref (ZObject base))
       then match createSchemaObject (ZObject base) ["extended schema"] state with
            | Ok (_, state1) => Ok (tt, state1)
            | Throw e => Throw e
            end
       else Ok (tt, state)) = Ok (tt, st1) → R state st1) as Hgen.
    { intros st1. destruct (component_or_ref _ _).
      - destruct (createSchemaObject _ _ state) as [[f st]|e] eqn:Hb; [|done].
        intros [= <-]. by eapply Hstep.
      - intros [= <-]. apply Hrefl. }
    destruct (if component_or_ref _ _ then _ else _) as [[[] st1]|e]; [|done].
    specialize (Hgen st1 eq_refl).
    destruct (schemas_get (ZObject base) st1) as [c|]; [|by intros [= _ <-]].
    destruct (createDiffOpts _ _) as [diffOpts|]; [|by intros [= _ <-]].
    destruct (createShapeDiff _ _) as [diffShape|]; [|by intros [= _ <-]].
    destruct (createObjectSchemaFromShape diffShape diffOpts st1)
      as [[o st2]|e] eqn:Ho; [|done].
    intros [= _ <-]. eapply Htrans; [done | by eapply Hshape]. }
  split; [done|]. split; [done|].
  intros zodObject state o state'. rewrite createObjectSchema_unfold.
  destruct (createExtendedSchema _ _ state) as [[[s|] st1]|e] eqn:He; [| |done].
  - intros [= _ <-]. by eapply Hext.
  - intros Ho. eapply Htrans; [by eapply Hext | by eapply Hshape].
Qed.


(** X10: how [required] depends on the state.  Over a shape with distinct
    keys, a name is required in one state and not in another exactly when
    its field is not optional in the first and optional in the second. *)
Theorem requiredKeys_between_states (shape : ZodRawShape)
    (state1 state2 : SchemaState) (key : string) :
  NoDup (map fst shape) →
  (key ∈ requiredKeys shape state1 ∧ key ∉ requiredKeys shape state2) ↔
  ∃ zodSchema, (key, zodSchema) ∈ shape
               ∧ isOptionalSchema zodSchema state1 = false
               ∧ isOptionalSchema zodSchema state2 = true.
Proof.
  intros Hnd. rewrite !requiredKeys_elem. split.
  - intros [(z & Hin & H1) Hnot]. exists z. split; [done|]. split; [done|].
    destruct (isOptionalSchema z state2) eqn:H2; [done|].
    exfalso. apply Hnot. by exists z.
  - intros (z & Hin & H1 & H2). split; [by exists z|].
    intros (z' & Hin' & H2').
    assert (z' = z) as ->; [|congruence].
    apply (getProp_in_NoDup key _ shape Hnd) in Hin, Hin'. congruence.
Qed.

End ShapeMapperMore.

(* ------------------------------------------------------------------ *)
(** ** More on the extension/diff engine *)

Lemma objectLiteral_type_allOf (p : list (string * JSON))
    (required : option (list string)) (additional : SchemaObject) :
  additional = [] ∨ (∃ w, additional = [("additionalProperties", w)]) →
  getProp "type" (objectLiteral p required additional) = Some (JStr "object")
  ∧ getProp "allOf" (objectLiteral p required additional) = None.
Proof. intros [->|[w ->]]; by destruct required. Qed.

Section ExtensionMore.
Variable createSchemaObject : ZodType → list string → M SchemaObject.
Variable isOptionalSchema : ZodType → SchemaState → bool.

Local Abbreviation createObjectSchemaFromShape :=
  (createObjectSchemaFromShape createSchemaObject isOptionalSchema).
Local Abbreviation createExtendedSchema :=
  (createExtendedSchema createSchemaObject isOptionalSchema).
Local Abbreviation createObjectSchema :=
  (createObjectSchema createSchemaObject isOptionalSchema).

Lemma createObjectSchemaFromShape_literal shape opts state o state' :
  createObjectSchemaFromShape shape opts state = Ok (o, state') →
  getProp "type" o = Some (JStr "object") ∧ getProp "allOf" o = None.
Proof.
  rewrite createObjectSchemaFromShape_unfold.
  destruct (mapProperties_reduce _ shape [] state) as [[p state1]|e]; [|done].
  simpl. destruct (isZodType (catchAll opts) "ZodNever").
  - intros [= <- <-]. apply objectLiteral_type_allOf. destruct (is_strict _); eauto.
  - destruct (createSchemaObject _ _ state1) as [[s state2]|e]; [|done].
    intros [= <- <-]. apply objectLiteral_type_allOf. eauto.
Qed.

(** X11: every fragment [createObjectSchema] returns carries
    [type: 'object'], and it has an [allOf] exactly when
    [createExtendedSchema] supplied it. *)
Theorem createObjectSchema_type_allOf (zodObject : ZodObject)
    (state state' : SchemaState) (o : SchemaObject) :
  createObjectSchema zodObject state = Ok (o, state') →
  getProp "type" o = Some (JStr "object")
  ∧ (hasProp "allOf" o = true ↔
     createExtendedSchema zodObject (obj_extends zodObject) state
     = Ok (Some o, state')).
Proof.
  unfold createObjectSchema, bind.
  destruct (createExtendedSchema _ _ state) as [[[s|] state1]|e] eqn:Hext; [| |done].
  - intros [= <- <-]. destruct (obj_extends zodObject) as [base|]; [|done].
    apply createExtendedSchema_Some_inv in Hext
      as (r & st1 & c & diffOpts & diffShape & o & _ & _ & _ & _ & Hconv & ->).
    apply createObjectSchemaFromShape_literal in Hconv as [Htype _].
    split; [done|]. done.
  - intros Hconv. apply createObjectSchemaFromShape_literal in Hconv as [Htype Hall].
    split; [done|]. unfold hasProp. rewrite Hall. split; done.
Qed.

(** X12: the optimization is sound.  Whenever [createExtendedSchema]
    returns a schema, the dispatcher has been run on the base and the base
    is registered in the state that left; the base is not strict and its
    catch-all is [ZodNever]; every field of the candidate whose key the base
    has is the base's node; and the schema is [allOf] with the reference of
    that component, followed by the conversion of the candidate's other
    fields with the candidate's own options. *)
Theorem createExtendedSchema_sound (zodObject base : ZodObject)
    (state state2 : SchemaState) (s : SchemaObject) :
  NoDup (map fst (obj_shape zodObject)) →
  createExtendedSchema zodObject (Some base) state = Ok (Some s, state2) →
  ∃ r state1 completeComponent o,
    createSchemaObject (ZObject base) ["extended schema"] state = Ok (r, state1)
    ∧ schemas_get (ZObject base) state1 = Some completeComponent
    ∧ obj_unknownKeys base ≠ Some strict
    ∧ isZodType (obj_catchall base) "ZodNever" = true
    ∧ (∀ key val baseValue,
         (key, val) ∈ obj_shape zodObject →
         getProp key (obj_shape base) = Some baseValue →
         sameNode val baseValue = true)
    ∧ createObjectSchemaFromShape
        (absentFrom (obj_shape base) (obj_shape zodObject))
        (optionsOf zodObject) state1 = Ok (o, state2)
    ∧ s = allOfRef (component_ref completeComponent) :: o.
Proof.
  intros Hnd Hext.
  apply createExtendedSchema_Some_inv in Hext
    as (r & st1 & c & diffOpts & diffShape & o & Hgen & Hc & Hopts & Hdiff & Hconv & ->).
  exists r, st1, c, o.
  apply createShapeDiff_Some_inv in Hdiff as (-> & Hsame & _); [|done].
  unfold createDiffOpts, optionsOf, is_strict in Hopts. simpl in Hopts.
  case_bool_decide as Hstrict; [done|].
  destruct (isZodType (obj_catchall base) "ZodNever") eqn:Hnever; [|done].
  simpl in Hopts. injection Hopts as <-.
  done.
Qed.

(** X13: a base that is registered, or that is not registered yet but
    carries a non-empty [ref], is generated first, and the component looked
    up afterwards is the one the extension refers to.  With a permissive
    base, every shared field on the base's node and no other field named
    like a member of [Object.prototype], the result is [allOf] with that
    reference, followed by the conversion of the fields the base lacks. *)
Theorem createExtendedSchema_registrable_base
    (zodObject base : ZodObject) (state state1 : SchemaState)
    (r : SchemaObject) (completeComponent : SchemaComponent) :
  (schemas_get (ZObject base) state ≠ None
   ∨ ∃ name, openapi_ref (ZObject base) = Some name ∧ name ≠ "") →
  createSchemaObject (ZObject base) ["extended schema"] state = Ok (r, state1) →
  schemas_get (ZObject base) state1 = Some completeComponent →
  obj_unknownKeys base ≠ Some strict →
  isZodType (obj_catchall base) "ZodNever" = true →
  NoDup (map fst (obj_shape zodObject)) →
  (∀ key val baseValue,
     (key, val) ∈ obj_shape zodObject →
     getProp key (obj_shape base) = Some baseValue →
     sameNode val baseValue = true) →
  (∀ key val,
     (key, val) ∈ obj_shape zodObject →
     getProp key (obj_shape base) = None →
     key ∉ Object_prototype_keys) →
  createExtendedSchema zodObject (Some base) state =
    match createObjectSchemaFromShape
            (absentFrom (obj_shape base) (obj_shape zodObject))
            (optionsOf zodObject) state1 with
    | Ok (o, state2) =>
        Ok (Some (allOfRef (component_ref completeComponent) :: o), state2)
    | Throw e => Throw e
    end.
Proof.
  intros Hreg Hgen Hc Hstrict Hnever Hnd Hsame Hplain.
  rewrite createExtendedSchema_unfold. cbv zeta.
  assert (component_or_ref (schemas_get (ZObject base) state)
            (openapi_ref (ZObject base)) = true) as ->.
  { destruct Hreg as [Hreg | (name & -> & Hname)].
    - by destruct (schemas_get (ZObject base) state).
    - destruct (schemas_get (ZObject base) state); [done|]. simpl.
      apply negb_true_iff. by apply String.eqb_neq. }
  rewrite Hgen, Hc.
  unfold createDiffOpts, optionsOf, is_strict. simpl.
  rewrite bool_decide_eq_false_2, Hnever by done. simpl.
  unfold createShapeDiff.
  rewrite createShapeDiff_loop_clean by done. simpl.
  pose proof (allOf_createObjectSchemaFromShape createSchemaObject isOptionalSchema
    (absentFrom (obj_shape base) (obj_shape zodObject))
    {| unknownKeys := obj_unknownKeys zodObject;
       catchAll := obj_catchall zodObject |} state1
    (JArr [JObj [("$ref",
       JStr (createComponentSchemaRef (component_ref completeComponent)))]])) as Hs.
  destruct (createObjectSchemaFromShape _ _ state1) as [[o state2]|e]; [|done].
  by rewrite Hs.
Qed.

(** X14: without a base, or with a base that is neither registered nor
    carries a non-empty [ref], nothing is generated for the base: the state
    is untouched, [createExtendedSchema] returns [undefined] and
    [createObjectSchema] is [createObjectSchemaFromShape] on the whole
    shape.  And a base that its generation did not register gives
    [undefined] too, in the state the generation left. *)
Theorem createExtendedSchema_no_component (zodObject : ZodObject)
    (state : SchemaState) :
  (obj_extends zodObject = None
   ∨ (∃ base, obj_extends zodObject = Some base
              ∧ schemas_get (ZObject base) state = None
              ∧ (openapi_ref (ZObject base) = None
                 ∨ openapi_ref (ZObject base) = Some "")) →
   createExtendedSchema zodObject (obj_extends zodObject) state = Ok (None, state)
   ∧ createObjectSchema zodObject state
     = createObjectSchemaFromShape (obj_shape zodObject) (optionsOf zodObject) state)
  ∧ (∀ base r state1,
       (schemas_get (ZObject base) state ≠ None
        ∨ ∃ name, openapi_ref (ZObject base) = Some name ∧ name ≠ "") →
       createSchemaObject (ZObject base) ["extended schema"] state = Ok (r, state1) →
       schemas_get (ZObject base) state1 = None →
       createExtendedSchema zodObject (Some base) state = Ok (None, state1)).
Proof.
  split.
  - intros Hbase.
    assert (createExtendedSchema zodObject (obj_extends zodObject) state
            = Ok (None, state)) as Hext.
    { destruct Hbase as [-> | (base & -> & Hnone & Href)]; [done|].
      rewrite createExtendedSchema_unfold. cbv zeta. rewrite Hnone.
      destruct Href as [-> | ->]; simpl; by rewrite Hnone. }
    split; [done|]. unfold createObjectSchema, bind. by rewrite Hext.
  - intros base r state1 Hreg Hgen Hnone.
    rewrite createExtendedSchema_unfold. cbv zeta.
    assert (component_or_ref (schemas_get (ZObject base) state)
              (openapi_ref (ZObject base)) = true) as ->.
    { destruct Hreg as [Hreg | (name & -> & Hname)].
      - by destruct (schemas_get (ZObject base) state).
      - destruct (schemas_get (ZObject base) state); [done|]. simpl.
        apply negb_true_iff. by apply String.eqb_neq. }
    by rewrite Hgen, Hnone.
Qed.

End ExtensionMore.

Lemma elem_of_keys {V : Type} (key : string) (obj : list (string * V)) :
  key ∈ map fst obj ↔ ∃ v, (key, v) ∈ obj.
Proof.
  rewrite list_elem_of_In, in_map_iff. split.
  - intros ([k v] & <- & Hin). exists v. by apply list_elem_of_In.
  - intros (v & Hin). exists (key, v). split; [done | by apply list_elem_of_In].
Qed.

Lemma map_JStr_inj (a b : list string) : map JStr a = map JStr b → a = b.
Proof.
  revert b. induction a as [|x a IH]; intros [|y b]; simpl; try done.
  intros [= -> H]. f_equal. by apply IH.
Qed.

Section ExtensionDelta.
Variable createSchemaObject : ZodType → list string → M SchemaObject.
Variable isOptionalSchema : ZodType → SchemaState → bool.

(** X16: an extension never repeats the base.  In a schema that
    [createExtendedSchema] returns, [properties] has exactly the keys of the
    candidate that the base lacks, and every name under [required] is one
    of them. *)
Theorem createExtendedSchema_delta_keys (zodObject base : ZodObject)
    (state state2 : SchemaState) (s : SchemaObject) :
  NoDup (map fst (obj_shape zodObject)) →
  createExtendedSchema createSchemaObject isOptionalSchema
    zodObject (Some base) state = Ok (Some s, state2) →
  ∃ p, getProp "properties" s = Some (JObj p)
       ∧ (∀ key, key ∈ map fst p ↔
            key ∈ map fst (obj_shape zodObject)
            ∧ getProp key (obj_shape base) = None)
       ∧ (∀ names name,
            getProp "required" s = Some (JArr (map JStr names)) →
            name ∈ names →
            name ∈ map fst (obj_shape zodObject)
            ∧ getProp name (obj_shape base) = None).
Proof.
  intros Hnd Hext.
  apply createExtendedSchema_Some_inv in Hext
    as (r & st1 & c & diffOpts & diffShape & o & _ & _ & _ & Hdiff & Hconv & ->).
  assert (diffShape = absentFrom (obj_shape base) (obj_shape zodObject)) as ->
    by (by apply createShapeDiff_Some_inv in Hdiff as (-> & _ & _)).
  assert (∀ key, key ∈ map fst (absentFrom (obj_shape base) (obj_shape zodObject)) ↔
            key ∈ map fst (obj_shape zodObject)
            ∧ getProp key (obj_shape base) = None) as Habsent.
  { intros key. rewrite !elem_of_keys. split.
    - intros (v & [Hin Hb]%absentFrom_elem). split; [by exists v | done].
    - intros [(v & Hin) Hb]. exists v. by apply absentFrom_elem. }
  rewrite createObjectSchemaFromShape_unfold in Hconv.
  destruct (mapProperties_reduce _ _ [] st1) as [[p st1']|e] eqn:Hp; [|done].
  assert (∀ key, key ∈ map fst p ↔
            key ∈ map fst (obj_shape zodObject)
            ∧ getProp key (obj_shape base) = None) as Hkeys.
  { intros key. rewrite <- Habsent.
    rewrite (mapProperties_reduce_keys _ isOptionalSchema _ _ _ _ _ Hp). simpl.
    split; [intros [?%elem_of_nil|?]; done | by right]. }
  assert (∀ names name, mapRequired isOptionalSchema
            (absentFrom (obj_shape base) (obj_shape zodObject)) st1' = Some names →
            name ∈ names →
            name ∈ map fst (obj_shape zodObject)
            ∧ getProp name (obj_shape base) = None) as Hreq.
  { intros names name. unfold mapRequired.
    pose proof (requiredKeys_sublist isOptionalSchema
      (absentFrom (obj_shape base) (obj_shape zodObject)) st1') as Hsub.
    destruct (requiredKeys _ _ st1') as [|n ns]; simpl; [done|].
    intros [= <-] Hin. apply Habsent. by eapply elem_of_sublist. }
  assert (∀ additional,
            additional = [] ∨ (∃ w, additional = [("additionalProperties", w)]) →
            let o' := allOfRef (component_ref c)
                      :: objectLiteral p
                           (mapRequired isOptionalSchema
                              (absentFrom (obj_shape base) (obj_shape zodObject)) st1')
                           additional in
            getProp "properties" o' = Some (JObj p)
            ∧ ∀ names, getProp "required" o' = Some (JArr (map JStr names)) →
                mapRequired isOptionalSchema
                  (absentFrom (obj_shape base) (obj_shape zodObject)) st1'
                = Some names) as Hlit.
  { intros additional Hadd. unfold objectLiteral, allOfRef.
    destruct (mapRequired _ _ st1') as [ns|], Hadd as [->|[w ->]]; simpl;
      (split; [done|]); intros names [=]; try done;
      f_equal; by apply map_JStr_inj. }
  simpl in Hconv. exists p.
  destruct (isZodType (catchAll diffOpts) "ZodNever").
  - injection Hconv as <- <-.
    destruct (Hlit (if is_strict (unknownKeys diffOpts)
                    then [("additionalProperties", JBool false)] else []))
      as [Hprops Hrq]; [destruct (is_strict _); eauto|].
    split; [done|]. split; [done|]. intros names name Hr. by apply Hreq, Hrq.
  - destruct (createSchemaObject _ _ st1') as [[f st2]|e]; [|done].
    injection Hconv as <- <-.
    destruct (Hlit [("additionalProperties", JObj f)]) as [Hprops Hrq]; [eauto|].
    split; [done|]. split; [done|]. intros names name Hr. by apply Hreq, Hrq.
Qed.

End ExtensionDelta.

(* ------------------------------------------------------------------ *)
(** ** More on the transform resolver *)

(** X15: [createTransformSchema] consults one collaborator only.  When the
    transform declares ['output'], or declares nothing on an output
    traversal, the wrapped schema is never converted: the result is the same
    for every dispatcher.  When it declares ['input'], or declares nothing
    on an input traversal, the manual type is never asked for. *)
Theorem createTransformSchema_one_collaborator
    (zodTransform : ZodEffects) (state : SchemaState) :
  (openapi_effectType (ZEffects zodTransform) = Some output
   ∨ (openapi_effectType (ZEffects zodTransform) = None ∧ type state = output) →
   ∀ dispatcher1 dispatcher2 manual,
     createTransformSchema dispatcher1 manual zodTransform state
     = createTransformSchema dispatcher2 manual zodTransform state)
  ∧ (openapi_effectType (ZEffects zodTransform) = Some input
     ∨ (openapi_effectType (ZEffects zodTransform) = None ∧ type state = input) →
     ∀ dispatcher manual1 manual2,
       createTransformSchema dispatcher manual1 zodTransform state
       = createTransformSchema dispatcher manual2 zodTransform state).
Proof.
  unfold createTransformSchema. split.
  - intros [-> | [-> ->]] d1 d2 m; repeat case_bool_decide; congruence.
  - intros [-> | [-> ->]] d m1 m2; repeat case_bool_decide; congruence.
Qed.

(* ------------------------------------------------------------------ *)
(** ** The further properties at work *)

Lemma createShapeDiff_result_witness :
  [("b", ZString (Tests.plain 33))]
  = absentFrom (obj_shape Tests.baseX) (obj_shape Tests.extendedAB).
Proof.
  refine (proj1 (createShapeDiff_result (obj_shape Tests.baseX)
                   (obj_shape Tests.extendedAB) [("b", ZString (Tests.plain 33))]
                   _ _)).
  - apply (bool_decide_unpack _). vm_compute. exact I.
  - reflexivity.
Defined.

Lemma createShapeDiff_edges_witness :
  createShapeDiff Tests.shapeABC Tests.shapeABC = Some []
  ∧ createShapeDiff [] Tests.shapeABC = Some Tests.shapeABC
  ∧ createShapeDiff [] (obj_shape Tests.extendedToString) = None.
Proof.
  assert (NoDup (map fst Tests.shapeABC)) as Hnd
    by (apply (bool_decide_unpack _); vm_compute; exact I).
  split; [|split].
  - exact (proj2 (proj2 (proj2 (createShapeDiff_edges Tests.shapeABC))) Hnd).
  - refine (proj1 (proj2 (createShapeDiff_edges Tests.shapeABC)) Hnd _).
    intros key Hkey Hproto.
    assert (bool_decide (key ∈ map fst Tests.shapeABC
                         ∧ key ∈ Object_prototype_keys) = false) as Hno.
    { simpl in Hkey.
      apply elem_of_cons in Hkey as [->|Hkey]; [by vm_compute|].
      apply elem_of_cons in Hkey as [->|Hkey]; [by vm_compute|].
      apply list_elem_of_singleton in Hkey as ->. by vm_compute. }
    apply bool_decide_eq_false in Hno. apply Hno. by split.
  - refine (proj1 (proj2 (proj2 (createShapeDiff_edges
                                   (obj_shape Tests.extendedToString))))
              "toString" _ _).
    + simpl. right. left.
    + apply (bool_decide_unpack _). vm_compute. exact I.
Defined.

Lemma createShapeDiff_base_only_fields_witness :
  createShapeDiff (obj_shape Tests.baseX ++ [("z", ZString (Tests.plain 50))])
    (obj_shape Tests.extendedAB)
  = createShapeDiff (obj_shape Tests.baseX) (obj_shape Tests.extendedAB).
Proof.
  apply createShapeDiff_base_only_fields.
  simpl. intros key Hkey Hz. apply list_elem_of_singleton in Hz. subst key.
  apply elem_of_cons in Hkey as [Hkey|Hkey]; [discriminate Hkey|].
  apply list_elem_of_singleton in Hkey. discriminate Hkey.
Defined.


Lemma createObjectSchemaFromShape_error_witness :
  Tests.convert Tests.shapeWithTransform Tests.stripOpts createOutputState
  = Throw "Unknown schema".
Proof.
  refine (proj2 (proj1 (createObjectSchemaFromShape_error
                          (plainSchemaObject 5) plainIsOptionalSchema
                          Tests.shapeWithTransform Tests.stripOpts
                          createOutputState "Unknown schema")
                   [("a", ZString (Tests.plain 41))] "t"
                   (ZEffects Tests.transformPlain)
                   [("c", ZString (Tests.plain 44))]
                   [("a", JObj [("type", JStr "string")])] createOutputState
                   _ _ _)).
  - reflexivity.
  - vm_compute. reflexivity.
  - vm_compute. reflexivity.
Defined.

Lemma object_parser_no_error_of_its_own_witness :
  ∃ o state',
    createObjectSchema Tests.registeringDispatcher plainIsOptionalSchema
      Tests.extendedAB createInputState = Ok (o, state').
Proof.
  refine (proj2 (proj2 (object_parser_no_error_of_its_own
                          Tests.registeringDispatcher plainIsOptionalSchema _))
            Tests.extendedAB createInputState).
  intros z subpath state. eexists _, _. reflexivity.
Defined.

Lemma object_parser_frame_witness :
  match createObjectSchema Tests.registeringDispatcher plainIsOptionalSchema
          Tests.extendedAB createInputState with
  | Ok (_, state') => Tests.sameTraversal createInputState state'
  | Throw _ => False
  end.
Proof.
  destruct (createObjectSchema Tests.registeringDispatcher plainIsOptionalSchema
              Tests.extendedAB createInputState) as [[o state']|e] eqn:Hrun.
  - refine (proj2 (proj2 (object_parser_frame
                            Tests.registeringDispatcher plainIsOptionalSchema
                            Tests.sameTraversal _ _ _))
              Tests.extendedAB createInputState o state' Hrun).
    + intros state. unfold Tests.sameTraversal. auto.
    + unfold Tests.sameTraversal. intros s1 s2 s3 (? & ? & ?) (? & ? & ?).
      repeat split; congruence.
    + unfold Tests.registeringDispatcher, Tests.sameTraversal.
      intros z subpath state s state0 H. injection H as _ <-. simpl. auto.
  - vm_compute in Hrun. discriminate Hrun.
Defined.


Lemma requiredKeys_between_states_witness :
  "d" ∈ requiredKeys Tests.defaultedIsOptionalSchema Tests.shapeWithDefault
          createOutputState
  ∧ "d" ∉ requiredKeys Tests.defaultedIsOptionalSchema Tests.shapeWithDefault
            createInputState.
Proof.
  apply (requiredKeys_between_states Tests.defaultedIsOptionalSchema
           Tests.shapeWithDefault createOutputState createInputState "d").
  - apply (bool_decide_unpack _). vm_compute. exact I.
  - exists (ZLiteral (Tests.plain 45) "x").
    split; [right; left|]. split; reflexivity.
Defined.

Lemma createObjectSchema_type_allOf_witness :
  getProp "type"
    [("allOf", JArr [JObj [("$ref", JStr "#/components/schemas/X")]]);
     ("type", JStr "object");
     ("properties", JObj [("b", JObj [("type", JStr "string")])]);
     ("required", JArr [JStr "b"])]
  = Some (JStr "object").
Proof.
  refine (proj1 (createObjectSchema_type_allOf
                   (plainSchemaObject 5) plainIsOptionalSchema
                   Tests.extendedAB Tests.registeredState Tests.registeredState
                   _ _)).
  vm_compute. reflexivity.
Defined.

Lemma createExtendedSchema_sound_witness :
  ∃ completeComponent o,
    schemas_get (ZObject Tests.baseX) Tests.registeredState = Some completeComponent
    ∧ [("allOf", JArr [JObj [("$ref", JStr "#/components/schemas/X")]]);
       ("type", JStr "object");
       ("properties", JObj [("b", JObj [("type", JStr "string")])]);
       ("required", JArr [JStr "b"])]
      = allOfRef (component_ref completeComponent) :: o.
Proof.
  destruct (createExtendedSchema_sound
              (plainSchemaObject 5) plainIsOptionalSchema
              Tests.extendedAB Tests.baseX
              Tests.registeredState Tests.registeredState
              [("allOf", JArr [JObj [("$ref", JStr "#/components/schemas/X")]]);
               ("type", JStr "object");
               ("properties", JObj [("b", JObj [("type", JStr "string")])]);
               ("required", JArr [JStr "b"])])
    as (r & state1 & c & o & Hgen & Hc & _ & _ & _ & _ & Hs).
  - apply (bool_decide_unpack _). vm_compute. exact I.
  - vm_compute. reflexivity.
  - exists c, o. split; [|exact Hs].
    vm_compute in Hgen. injection Hgen as _ <-. exact Hc.
Defined.

Lemma createExtendedSchema_registrable_base_witness :
  Tests.extend Tests.extendedOfHinted createOutputState
  = Ok (Some [("allOf", JArr [JObj [("$ref", JStr "#/components/schemas/X")]]);
              ("type", JStr "object");
              ("properties", JObj [("b", JObj [("type", JStr "string")])]);
              ("required", JArr [JStr "b"])],
        Tests.hintedState)
  ∧ Tests.extend Tests.extendedAB Tests.registeredState
    = Ok (Some [("allOf", JArr [JObj [("$ref", JStr "#/components/schemas/X")]]);
                ("type", JStr "object");
                ("properties", JObj [("b", JObj [("type", JStr "string")])]);
                ("required", JArr [JStr "b"])],
          Tests.registeredState).
Proof.
  assert (NoDup ["a"; "b"]) as Hnd
    by (apply (bool_decide_unpack _); vm_compute; exact I).
  assert (∀ key val baseValue,
            (key, val) ∈ [("a", Tests.nodeA); ("b", ZString (Tests.plain 33))] →
            getProp key [("a", Tests.nodeA)] = Some baseValue →
            sameNode val baseValue = true) as Hsame.
  { intros key val baseValue Hin Hbase.
    apply elem_of_cons in Hin as [Hin|Hin].
    - injection Hin as -> ->. vm_compute in Hbase. injection Hbase as <-.
      reflexivity.
    - apply list_elem_of_singleton in Hin. injection Hin as -> ->.
      vm_compute in Hbase. discriminate Hbase. }
  assert (∀ key val,
            (key, val) ∈ [("a", Tests.nodeA); ("b", ZString (Tests.plain 33))] →
            getProp key [("a", Tests.nodeA)] = None →
            key ∉ Object_prototype_keys) as Hplain.
  { intros key val Hin Hbase.
    apply elem_of_cons in Hin as [Hin|Hin].
    - injection Hin as -> ->. vm_compute in Hbase. discriminate Hbase.
    - apply list_elem_of_singleton in Hin. injection Hin as -> ->.
      apply (bool_decide_unpack _). vm_compute. exact I. }
  split; unfold Tests.extend.
  - change (obj_extends Tests.extendedOfHinted) with (Some Tests.baseHinted).
    rewrite (createExtendedSchema_registrable_base
               (plainSchemaObject 5) plainIsOptionalSchema
               Tests.extendedOfHinted Tests.baseHinted
               createOutputState Tests.hintedState (refObject "X")
               (CompleteSchemaComponent "X" Tests.schemaOfA (Some output)));
      [vm_compute; reflexivity | | vm_compute; reflexivity
       | vm_compute; reflexivity | simpl; discriminate | vm_compute; reflexivity
       | exact Hnd | exact Hsame | exact Hplain].
    right. exists "X". split; [reflexivity | discriminate].
  - change (obj_extends Tests.extendedAB) with (Some Tests.baseX).
    rewrite (createExtendedSchema_registrable_base
               (plainSchemaObject 5) plainIsOptionalSchema
               Tests.extendedAB Tests.baseX
               Tests.registeredState Tests.registeredState (refObject "X")
               (CompleteSchemaComponent "X" Tests.schemaOfA (Some output)));
      [vm_compute; reflexivity | | vm_compute; reflexivity
       | vm_compute; reflexivity | simpl; discriminate | vm_compute; reflexivity
       | exact Hnd | exact Hsame | exact Hplain].
    left. vm_compute. discriminate.
Defined.

Lemma createExtendedSchema_no_component_witness :
  Tests.extend Tests.extendedOfEmptyRef createOutputState
  = Ok (None, createOutputState).
Proof.
  refine (proj1 (proj1 (createExtendedSchema_no_component
                          (plainSchemaObject 5) plainIsOptionalSchema
                          Tests.extendedOfEmptyRef createOutputState) _)).
  right. exists Tests.baseEmptyRef.
  split; [reflexivity|]. split; [reflexivity|]. right. reflexivity.
Defined.

Lemma createTransformSchema_one_collaborator_witness :
  Tests.transform Tests.transformOut createInputState
  = createTransformSchema (λ _ _, throw "never run") plainManualTypeSchema
      Tests.transformOut createInputState.
Proof.
  refine (proj1 (createTransformSchema_one_collaborator
                   Tests.transformOut createInputState) _ _ _ _).
  left. reflexivity.
Defined.

Lemma createExtendedSchema_delta_keys_witness :
  ∃ p,
    getProp "properties"
      [("allOf", JArr [JObj [("$ref", JStr "#/components/schemas/X")]]);
       ("type", JStr "object");
       ("properties", JObj [("b", JObj [("type", JStr "string")])]);
       ("required", JArr [JStr "b"])]
    = Some (JObj p)
    ∧ ∀ key, key ∈ map fst p ↔
        key ∈ map fst (obj_shape Tests.extendedAB)
        ∧ getProp key (obj_shape Tests.baseX) = None.
Proof.
  destruct (createExtendedSchema_delta_keys
              (plainSchemaObject 5) plainIsOptionalSchema
              Tests.extendedAB Tests.baseX
              Tests.registeredState Tests.registeredState
              [("allOf", JArr [JObj [("$ref", JStr "#/components/schemas/X")]]);
               ("type", JStr "object");
               ("properties", JObj [("b", JObj [("type", JStr "string")])]);
               ("required", JArr [JStr "b"])])
    as (p & Hp & Hkeys & _).
  - apply (bool_decide_unpack _). vm_compute. exact I.
  - vm_compute. reflexivity.
  - exists p. split; [exact Hp | exact Hkeys].
Defined.
